(** * Token lifecycle of [backend/app/common/jwt.py]

    A shallow embedding of the token module: issuing access and refresh
    tokens, registering them in the Redis revocation index, renewing an
    access token from a refresh token, extracting a bearer token from a
    header, decoding a token and resolving the current user.

    Conventions.
    - Python [str] is [string] (a sequence of bytes); Python [int] is [Z].
    - A naive [datetime] and a [timedelta] are integers counting
      microseconds, the resolution Python keeps them at.  The range limits
      of [datetime] (years 1..9999) are not modelled.
    - [td.total_seconds()] is a float: the microsecond count divided by
      10^6, correctly rounded to 53 bits.  [int(td.total_seconds())] is that
      float truncated toward zero; see [int_total_seconds].
    - An [async def] is a computation over the Redis store that may raise:
      [store -> result A * store].  Awaits are sequential; interleaving of
      several requests is outside this file. *)

From Stdlib Require Import ZArith Ascii List Bool Lia.
From stdpp Require Import base option list gmap strings pretty fin_maps.

Local Open Scope Z_scope.

(** ** Exceptions and results *)

(** The exception classes that occur in the module.  [TokenError] and
    [AuthorizationError] carry the optional [msg] keyword they are raised
    with ([None] when the class is raised bare). *)
Inductive exn : Type :=
  | JWTError
  | ExpiredSignatureError
  | JWTClaimsError
  | ValidationError
  | TypeError
  | ValueError
  | TokenError (msg : option string)
  | AuthorizationError (msg : option string).

(** The classes an [except] clause can name. *)
Inductive exn_class : Type :=
  | C_Exception
  | C_JWTError
  | C_ValidationError
  | C_TokenError
  | C_AuthorizationError.

(** [isinstance(e, c)]: [ExpiredSignatureError] and [JWTClaimsError] derive
    from [JWTError]; every class here derives from [Exception]. *)
Definition isinstance (e : exn) (c : exn_class) : bool :=
  match c, e with
  | C_Exception, _ => true
  | C_JWTError, (JWTError | ExpiredSignatureError | JWTClaimsError) => true
  | C_ValidationError, ValidationError => true
  | C_TokenError, TokenError _ => true
  | C_AuthorizationError, AuthorizationError _ => true
  | _, _ => false
  end.

Inductive result (A : Type) : Type :=
  | Ok (a : A)
  | Raise (e : exn).
Arguments Ok {A} a.
Arguments Raise {A} e.

Definition is_token_error {A} (r : result A) : Prop :=
  match r with Raise (TokenError _) => True | _ => False end.

Definition is_authorization_error {A} (r : result A) : Prop :=
  match r with Raise (AuthorizationError _) => True | _ => False end.

Definition res_bind {A B} (r : result A) (k : A -> result B) : result B :=
  match r with
  | Ok a => k a
  | Raise e => Raise e
  end.

(** [try: body except (classes): handler] *)
Definition try_except {A} (body : result A) (classes : list exn_class)
    (handler : exn -> result A) : result A :=
  match body with
  | Ok a => Ok a
  | Raise e => if existsb (isinstance e) classes then handler e else Raise e
  end.

(** ** Python strings *)

Definition ascii_lower (c : ascii) : ascii :=
  let n := N_of_ascii c in
  if ((65 <=? n) && (n <=? 90))%N then ascii_of_N (n + 32) else c.

(** [s.lower()] on the bytes of [s]: the letters A..Z are folded, every other
    byte is kept. *)
Fixpoint str_lower (s : string) : string :=
  match s with
  | EmptyString => EmptyString
  | String c s' => String (ascii_lower c) (str_lower s')
  end.

(** [s.partition(sep)] for a one-character separator: the part before the
    first [sep], whether it was found, and the part after it. *)
Fixpoint str_partition (sep : ascii) (s : string) : string * bool * string :=
  match s with
  | EmptyString => (EmptyString, false, EmptyString)
  | String c s' =>
      if Ascii.eqb c sep then (EmptyString, true, s')
      else let '(a, found, b) := str_partition sep s' in (String c a, found, b)
  end.

(** ** Bearer token extraction *)

(** [fastapi.security.utils.get_authorization_scheme_param]: an absent or
    empty value gives two empty strings, otherwise the value is split at the
    first space. *)
Definition get_authorization_scheme_param (v : option string)
    : string * string :=
  match v with
  | None | Some EmptyString => (EmptyString, EmptyString)
  | Some h => let '(scheme, _, param) := str_partition " "%char h in (scheme, param)
  end.

(** Truth value of an optional string ([None] and [''] are falsy). *)
Definition truthy_opt_str (v : option string) : bool :=
  match v with
  | None | Some EmptyString => false
  | Some _ => true
  end.

(** [get_token(request)], with the request reduced to the value of its
    [Authorization] header. *)
Definition get_token (authorization : option string) : result string :=
  let '(scheme, token) := get_authorization_scheme_param authorization in
  if negb (truthy_opt_str authorization)
     || negb (String.eqb (str_lower scheme) "bearer")
  then Raise (TokenError None)
  else Ok token.

(** ** Python values *)

(** The values a claims dictionary or a keyword argument holds here.  A
    [datetime] and a [timedelta] count microseconds.  Floats and nested
    dictionaries are outside the model. *)
#[warnings="-register-all"]
Inductive pyval : Type :=
  | PNone
  | PBool (b : bool)
  | PInt (z : Z)
  | PStr (s : string)
  | PList (l : list pyval)
  | PDatetime (us : Z)
  | PTimedelta (us : Z).

(** A dictionary with string keys; equality of [gmap]s is equality of the
    dictionaries (Python compares them regardless of insertion order). *)
Abbreviation pydict := (gmap string pyval).

(** [d.get(k)]: the value, or [None]. *)
Definition dict_get (d : pydict) (k : string) : pyval :=
  default PNone (d !! k).

(** [d.pop(k, None)]: the value (or [None]) and the dictionary without [k]. *)
Definition dict_pop (d : pydict) (k : string) : pyval * pydict :=
  (dict_get d k, delete k d).

(** Truth value of an object. *)
Definition py_truthy (v : pyval) : bool :=
  match v with
  | PNone => false
  | PBool b => b
  | PInt z => negb (z =? 0)
  | PStr s => negb (String.eqb s "")
  | PList l => match l with [] => false | _ => true end
  | PDatetime _ => true
  | PTimedelta us => negb (us =? 0)
  end.

(** [v is False]: identity with the [False] singleton. *)
Definition is_False (v : pyval) : bool :=
  match v with PBool false => true | _ => false end.

(** The blanks [int()] skips around a number: tab, line feed, vertical tab,
    form feed, carriage return and space. *)
Definition is_py_space (c : ascii) : bool :=
  let n := N_of_ascii c in
  (((9 <=? n) && (n <=? 13)) || (n =? 32))%N.

Definition digit_of (c : ascii) : option Z :=
  let n := N_of_ascii c in
  if ((48 <=? n) && (n <=? 57))%N then Some (Z.of_N n - 48) else None.

Fixpoint str_lstrip (s : string) : string :=
  match s with
  | String c s' => if is_py_space c then str_lstrip s' else s
  | EmptyString => EmptyString
  end.

Definition str_strip (s : string) : string :=
  String.rev (str_lstrip (String.rev (str_lstrip s))).

(** The digits after the first one: a digit, or one underscore followed by
    a digit. *)
Fixpoint digits_go (acc : Z) (s : string) : option Z :=
  match s with
  | EmptyString => Some acc
  | String c r =>
      match digit_of c with
      | Some d => digits_go (10 * acc + d) r
      | None =>
          if Ascii.eqb c "_"%char then
            match r with
            | String c' r' =>
                match digit_of c' with
                | Some d' => digits_go (10 * acc + d') r'
                | None => None
                end
            | EmptyString => None
            end
          else None
      end
  end.

Definition digits (s : string) : option Z :=
  match s with
  | String c r =>
      match digit_of c with
      | Some d => digits_go d r
      | None => None
      end
  | EmptyString => None
  end.

(** [int(s)] for a string of ASCII characters, base 10: surrounding
    blanks, an optional sign, decimal digits with single underscores between
    them; any other byte makes it fail.  A string is a sequence of bytes
    here, so the digits and blanks outside ASCII that [int()] also reads
    are not modelled, nor is the interpreter's cap on the number of digits
    (4300 by default): statements that conclude from a successful reading
    say which strings they are about. *)
Definition int_of_str (s : string) : option Z :=
  match str_strip s with
  | String "+"%char r => digits r
  | String "-"%char r => Z.opp <$> digits r
  | t => digits t
  end.

(** The bytes of a numeral [int_of_str] reads: a blank, a digit, an
    underscore or a sign. *)
Definition int_char (c : ascii) : bool :=
  is_py_space c || bool_decide (is_Some (digit_of c))
  || Ascii.eqb c "_" || Ascii.eqb c "+" || Ascii.eqb c "-".

(** [int(v)] *)
Definition py_int (v : pyval) : result Z :=
  match v with
  | PInt z => Ok z
  | PBool b => Ok (if b then 1 else 0)
  | PStr s =>
      match int_of_str s with
      | Some z => Ok z
      | None => Raise ValueError
      end
  | PNone | PList _ | PDatetime _ | PTimedelta _ => Raise TypeError
  end.

Fixpoint str_chars (s : string) : list pyval :=
  match s with
  | EmptyString => []
  | String c s' => PStr (String c EmptyString) :: str_chars s'
  end.

(** [list(v)] *)
Definition py_list (v : pyval) : result (list pyval) :=
  match v with
  | PList l => Ok l
  | PStr s => Ok (str_chars s)
  | PNone | PBool _ | PInt _ | PDatetime _ | PTimedelta _ => Raise TypeError
  end.

(** ** Time *)

Definition MICRO : Z := 1000000.

(** [timedelta(seconds=n)] *)
Definition timedelta_seconds (n : Z) : Z := n * MICRO.

(** [int(float)] of the float [a / 10**6] for a count [a >= 0] of
    microseconds.  With [k] whole seconds and [r] microseconds left over,
    the exact quotient lies between the floats [k] and [k + 1]; the float
    before [k + 1] is [2 ^ (log2 k - 52)] below it, so the division rounds up
    to [k + 1] exactly when the [10^6 - r] microseconds missing to the next
    second are less than half of that step, and the truncation then gives
    [k + 1] instead of [k].  This starts at 2^34 seconds.  Under 2^47 seconds,
    which covers every [timedelta] Python can hold, no quotient lies halfway
    between two floats; from 2^47 seconds on the exact quotient is taken. *)
Definition whole_seconds (a : Z) : Z :=
  let k := a / MICRO in
  let r := a mod MICRO in
  if (0 <? r) && (k <? 2 ^ 47)
     && ((MICRO - r) * 2 ^ (53 - Z.log2 k) <? MICRO)
  then k + 1
  else k.

(** [int(td.total_seconds())]: the division and the truncation are
    symmetric in the sign. *)
Definition int_total_seconds (td : Z) : Z :=
  Z.sgn td * whole_seconds (Z.abs td).

(** [calendar.timegm(dt.utctimetuple())]: the whole seconds of a naive
    datetime, its microseconds dropped. *)
Definition timegm (dt : Z) : Z := dt / MICRO.

(** ** Settings *)

(** [backend.app.core.conf.settings], the fields this module reads. *)
Record Settings : Type := {
  TOKEN_SECRET_KEY : string;
  TOKEN_ALGORITHM : string;
  TOKEN_EXPIRE_SECONDS : Z;
  TOKEN_REFRESH_EXPIRE_SECONDS : Z;
  TOKEN_REDIS_PREFIX : string;
  TOKEN_REFRESH_REDIS_PREFIX : string
}.

(** ** Monads for raising and for the store *)

Global Instance result_ret : MRet result := fun A a => Ok a.
Global Instance result_bind : MBind result := fun A B k r => res_bind r k.

(** ** The Redis revocation index *)

(** An entry of the store: the value and the ttl (seconds) it was written
    with.  Lapse of a ttl is a transition of the store between requests and
    is not taken inside a call. *)
Abbreviation redis := (gmap string (string * Z)).

(** A coroutine of the module run to completion on the store. *)
Definition M (A : Type) : Type := redis -> result A * redis.

Global Instance M_ret : MRet M := fun A a st => (Ok a, st).
Global Instance M_bind : MBind M := fun A B k m st =>
  match m st with
  | (Ok a, st') => k a st'
  | (Raise e, st') => (Raise e, st')
  end.

Definition raise {A} (e : exn) : M A := fun st => (Raise e, st).

Definition lift {A} (r : result A) : M A := fun st => (r, st).

(** [s.startswith(p)] *)
Fixpoint startswith (p s : string) : bool :=
  match p, s with
  | EmptyString, _ => true
  | String a p', String b s' => Ascii.eqb a b && startswith p' s'
  | String _ _, EmptyString => false
  end.

(** Modelled from the spec: [redis_client.setex] of
    [backend/app/common/redis.py] is the index's
    [put(namespace, subjectId, tokenValue, ttlSeconds)]: it stores the
    entry, overwriting an existing identical key; the ttl is recorded as
    the caller gave it. *)
Definition redis_setex (key : string) (ttl : Z) (value : string) : M unit :=
  fun st => (Ok tt, <[key := (value, ttl)]> st).

(** Modelled from the spec: [redis_client.get] is the index's
    [get(...) -> tokenValue | absent]. *)
Definition redis_get (key : string) : M (option string) :=
  fun st => (Ok (fst <$> st !! key), st).

(** Modelled from the spec: [redis_client.delete_prefix] is the index's
    [deletePrefix]: it deletes every entry under the given prefix and is a
    no-op when there is none. *)
Definition redis_delete_prefix (prefix : string) : M unit :=
  fun st => (Ok tt, filter (fun kv => startswith prefix kv.1 = false) st).

(** ** The JWT library *)

(** A string without the separator of the store's keys. *)
Fixpoint colon_free (s : string) : bool :=
  match s with
  | EmptyString => true
  | String c s' => negb (Ascii.eqb c ":") && colon_free s'
  end.

(** The exceptions that do not belong to this application. *)
Definition library_error (e : exn) : bool :=
  match e with
  | TokenError _ | AuthorizationError _ => false
  | _ => true
  end.

(** The registered claims, besides [exp] and [sub], that the library
    validates when a token carries them. *)
Definition validated_claims : list string :=
  ["nbf"; "iat"; "aud"; "iss"; "jti"; "at_hash"].

(** Values that [json.dumps] writes and [json.loads] reads back equal. *)
Fixpoint json_value (v : pyval) : bool :=
  match v with
  | PNone | PBool _ | PInt _ | PStr _ => true
  | PList l => forallb json_value l
  | PDatetime _ | PTimedelta _ => false
  end.

(** An entry of a claims dictionary as this module builds them: an expiry
    that is a datetime, a subject that is a string, none of the other
    registered claims the library validates, JSON values elsewhere. *)
Definition claim_ok (k : string) (v : pyval) : bool :=
  if String.eqb k "exp" then match v with PDatetime _ => true | _ => false end
  else if String.eqb k "sub" then match v with PStr _ => true | _ => false end
  else if existsb (String.eqb k) validated_claims then false
  else json_value v.

Definition plain_claims (claims : pydict) : Prop :=
  map_Forall (fun k v => claim_ok k v = true) claims.

Global Instance plain_claims_dec (claims : pydict) :
  Decision (plain_claims claims).
Proof. unfold plain_claims. apply _. Defined.

(** [jose.jwt], as far as this module relies on it.  [jose_encode claims
    key algorithm] signs a claims dictionary; [jose_decode token key
    algorithms now] verifies and parses a token, [now] being the UTC time in
    seconds the library reads.  The contract: under a supported algorithm,
    plain claims with expiry [exp] encode to a non-empty token, which decodes
    under the same key to the same claims (the expiry as whole seconds)
    while [now] is not past the expiry, and raises [ExpiredSignatureError]
    after it.  A token is a non-empty string without a colon (segments of
    base64url joined by dots), and what [jose_encode] raises is an error of
    the library or of the interpreter, never one of this application. *)
Class Jose : Type := {
  jose_encode : pydict -> string -> string -> result string;
  jose_decode : string -> string -> list string -> Z -> result pydict;
  jose_supported : string -> bool;
  jose_contract :
    forall (claims : pydict) (key alg : string) (exp : Z),
      jose_supported alg = true ->
      plain_claims claims ->
      claims !! "exp" = Some (PDatetime exp) ->
      exists token,
        jose_encode claims key alg = Ok token /\
        forall now,
          jose_decode token key [alg] now =
            if now <=? timegm exp
            then Ok (<["exp" := PInt (timegm exp)]> claims)
            else Raise ExpiredSignatureError;
  jose_token_shape :
    forall (claims : pydict) (key alg token : string),
      jose_encode claims key alg = Ok token ->
      token <> "" /\ colon_free token = true;
  jose_encode_raises :
    forall (claims : pydict) (key alg : string) (e : exn),
      jose_encode claims key alg = Raise e -> library_error e = true
}.

(** ** The functions of the module *)

(** [backend.app.models.User], as far as the module reads it. *)
Module models.
Record User : Type := {
  id : Z;
  is_active : bool;
  is_superuser : bool
}.
End models.

Section TokenModule.

Context {J : Jose}.
Variable settings : Settings.

(** The user table and [UserDao.get_with_relation(db, user_id=...)], the
    lookup collaborator: a user or nothing. *)
Variable DB : Type.
Variable get_with_relation : DB -> pyval -> option models.User.

(** [f'{prefix}:{sub}:'] *)
Definition subject_prefix (prefix sub : string) : string :=
  prefix +:+ ":" +:+ sub +:+ ":".

(** [f'{prefix}:{sub}:{token}'] *)
Definition token_key (prefix sub token : string) : string :=
  prefix +:+ ":" +:+ sub +:+ ":" +:+ token.

(** [{'exp': expire, 'sub': sub, **kwargs}]: a key of [kwargs] replaces
    the entry written before it. *)
Definition to_encode (expire : Z) (sub : string) (kwargs : pydict) : pydict :=
  kwargs ∪ <["sub" := PStr sub]> {["exp" := PDatetime expire]}.

(** Truth value of [expires_delta]: [None] and a zero duration are falsy. *)
Definition truthy_delta (d : option Z) : bool :=
  match d with
  | Some us => negb (us =? 0)
  | None => false
  end.

(** [create_access_token(sub, expires_delta, **kwargs)] at local time
    [now] (the value of [datetime.now()]). *)
Definition create_access_token (now : Z) (sub : string)
    (expires_delta : option Z) (kwargs : pydict) : M (string * Z) :=
  let '(expire, expire_seconds) :=
    if truthy_delta expires_delta
    then (now + default 0 expires_delta,
          int_total_seconds (default 0 expires_delta))
    else (now + timedelta_seconds (TOKEN_EXPIRE_SECONDS settings),
          TOKEN_EXPIRE_SECONDS settings) in
  let '(multi_login, kwargs) := dict_pop kwargs "multi_login" in
  let to_encode := to_encode expire sub kwargs in
  token ← lift (jose_encode to_encode (TOKEN_SECRET_KEY settings)
                  (TOKEN_ALGORITHM settings));
  (if is_False multi_login
   then redis_delete_prefix (subject_prefix (TOKEN_REDIS_PREFIX settings) sub)
   else mret tt);;
  let key := token_key (TOKEN_REDIS_PREFIX settings) sub token in
  redis_setex key expire_seconds token;;
  mret (token, expire).

(** [create_refresh_token(sub, expire_time, **kwargs)] at local time [now].
    A datetime is always truthy, so a supplied [expire_time] always takes the
    first branch. *)
Definition create_refresh_token (now : Z) (sub : string)
    (expire_time : option Z) (kwargs : pydict) : M (string * Z) :=
  let '(expire, expire_seconds) :=
    match expire_time with
    | Some t =>
        let expire := t + timedelta_seconds (TOKEN_REFRESH_EXPIRE_SECONDS settings) in
        (expire, int_total_seconds (expire - now))
    | None =>
        (now + timedelta_seconds (TOKEN_REFRESH_EXPIRE_SECONDS settings),
         TOKEN_REFRESH_EXPIRE_SECONDS settings)
    end in
  let '(multi_login, kwargs) := dict_pop kwargs "multi_login" in
  let to_encode := to_encode expire sub kwargs in
  refresh_token ← lift (jose_encode to_encode (TOKEN_SECRET_KEY settings)
                          (TOKEN_ALGORITHM settings));
  (if is_False multi_login
   then redis_delete_prefix
          (subject_prefix (TOKEN_REFRESH_REDIS_PREFIX settings) sub)
   else mret tt);;
  let key := token_key (TOKEN_REFRESH_REDIS_PREFIX settings) sub refresh_token in
  redis_setex key expire_seconds refresh_token;;
  mret (refresh_token, expire).

(** The call [create_access_token(sub, **kwargs)]: a keyword
    [expires_delta] binds the parameter of that name.  A value that is no
    timedelta takes the default branch when falsy and makes
    [datetime.now() + expires_delta] raise [TypeError] when truthy. *)
Definition call_create_access_token (now : Z) (sub : string)
    (kwargs : pydict) : M (string * Z) :=
  match kwargs !! "expires_delta" with
  | None => create_access_token now sub None kwargs
  | Some (PTimedelta d) =>
      create_access_token now sub (Some d) (delete "expires_delta" kwargs)
  | Some v =>
      if py_truthy v then raise TypeError
      else create_access_token now sub None (delete "expires_delta" kwargs)
  end.

(** [create_new_token(sub, refresh_token, **kwargs)] *)
Definition create_new_token (now : Z) (sub refresh_token : string)
    (kwargs : pydict) : M (string * Z) :=
  redis_refresh_token ←
    redis_get (token_key (TOKEN_REFRESH_REDIS_PREFIX settings) sub refresh_token);
  if negb (truthy_opt_str redis_refresh_token)
     || negb (bool_decide (redis_refresh_token = Some refresh_token))
  then raise (TokenError (Some "refresh_token 已过期"))
  else
    '(new_token, expire) ← call_create_access_token now sub kwargs;
    mret (new_token, expire).

(** [jwt_decode(token)], the library reading UTC time [utcnow] (seconds). *)
Definition jwt_decode (utcnow : Z) (token : string) : result (Z * list pyval) :=
  try_except
    (payload ← jose_decode token (TOKEN_SECRET_KEY settings)
                 [TOKEN_ALGORITHM settings] utcnow;
     user_id ← py_int (dict_get payload "sub");
     role_ids ← py_list (dict_get payload "role_ids");
     if negb (py_truthy (PInt user_id)) || negb (py_truthy (PList role_ids))
     then Raise (TokenError None)
     else Ok (user_id, role_ids))
    [C_JWTError; C_ValidationError; C_Exception]
    (fun _ => Raise (TokenError None)).

(** [jwt_authentication(token)] *)
Definition jwt_authentication (utcnow : Z) (token : string) : M pydict :=
  '(user_id, _) ← lift (jwt_decode utcnow token);
  let key := token_key (TOKEN_REDIS_PREFIX settings) (pretty user_id) token in
  token_verify ← redis_get key;
  if negb (truthy_opt_str token_verify)
  then raise (TokenError (Some "token 已过期"))
  else mret ({["sub" := PInt user_id]} : pydict).

(** [get_current_user(db, data)] *)
Definition get_current_user (db : DB) (data : pydict)
    : result models.User :=
  let user_id := dict_get data "sub" in
  match get_with_relation db user_id with
  | None => Raise (TokenError None)
  | Some user =>
      if negb (models.is_active user)
      then Raise (AuthorizationError (Some "用户已锁定"))
      else Ok user
  end.

(** [superuser_verify(request)], the request reduced to [request.user]. *)
Definition superuser_verify (user : models.User) : result bool :=
  let is_superuser := models.is_superuser user in
  if negb is_superuser then Raise (AuthorizationError None)
  else Ok is_superuser.

End TokenModule.

(** ** Vocabulary of the statements *)

(** Two bytes are the same letter up to case: equal, or one is a capital
    A..Z and the other its small letter. *)
Definition ascii_ci (a b : ascii) : Prop :=
  let m := N_of_ascii a in
  let n := N_of_ascii b in
  (m = n \/ (65 <= m <= 90 /\ n = m + 32) \/ (65 <= n <= 90 /\ m = n + 32))%N.

(** Case-insensitive equality of strings, byte by byte. *)
Inductive ci_eq : string -> string -> Prop :=
  | ci_nil : ci_eq "" ""
  | ci_cons a b s t :
      ascii_ci a b -> ci_eq s t -> ci_eq (String a s) (String b t).

(** A required field that is missing or empty. *)
Definition missing_or_empty (v : option pyval) : Prop :=
  v = None \/ v = Some PNone \/ v = Some (PStr "") \/ v = Some (PList []).

Section Vocabulary.

Variable settings : Settings.

(** The expiry and the ttl an access token is issued with. *)
Definition access_expiry (now : Z) (expires_delta : option Z) : Z * Z :=
  match expires_delta with
  | Some d =>
      if d =? 0
      then (now + timedelta_seconds (TOKEN_EXPIRE_SECONDS settings),
            TOKEN_EXPIRE_SECONDS settings)
      else (now + d, int_total_seconds d)
  | None =>
      (now + timedelta_seconds (TOKEN_EXPIRE_SECONDS settings),
       TOKEN_EXPIRE_SECONDS settings)
  end.

(** The expiry and the ttl a refresh token is issued with. *)
Definition refresh_expiry (now : Z) (expire_time : option Z) : Z * Z :=
  match expire_time with
  | Some t =>
      (t + timedelta_seconds (TOKEN_REFRESH_EXPIRE_SECONDS settings),
       int_total_seconds
         (t + timedelta_seconds (TOKEN_REFRESH_EXPIRE_SECONDS settings) - now))
  | None =>
      (now + timedelta_seconds (TOKEN_REFRESH_EXPIRE_SECONDS settings),
       TOKEN_REFRESH_EXPIRE_SECONDS settings)
  end.

End Vocabulary.

(** The store after the prefix delete, when the call performs it. *)
Definition after_delete (multi_login : pyval) (prefix : string) (st : redis)
    : redis :=
  if is_False multi_login
  then filter (fun kv => startswith prefix kv.1 = false) st
  else st.

(** The claims an issuing call hands to the library. *)
Definition issued_claims (expire : Z) (sub : string) (kwargs : pydict)
    : pydict :=
  to_encode expire sub (delete "multi_login" kwargs).

(** The session set of a subject: the entries under its prefix. *)
Definition session_set (prefix sub : string) (st : redis) : redis :=
  filter (fun kv => startswith (subject_prefix prefix sub) kv.1 = true) st.

(** The part of a key after its last colon. *)
Fixpoint last_segment (s : string) : string :=
  match s with
  | EmptyString => EmptyString
  | String c r =>
      if colon_free r
      then (if Ascii.eqb c ":" then r else String c r)
      else last_segment r
  end.

(** The error [create_new_token] raises. *)
Definition refresh_expired : exn :=
  TokenError (Some "refresh_token 已过期").

(** The check of [create_new_token] refuses an entry that is absent, whose
    value is empty, or whose value is not the presented token. *)
Definition refused (entry : option (string * Z)) (refresh_token : string)
    : Prop :=
  match entry with
  | None => True
  | Some (v, _) => v = "" \/ v <> refresh_token
  end.

(** The two namespaces partition the keys: the prefixes are different and
    hold no colon, so no key of one namespace lies under a subject prefix
    of the other. *)
Definition namespace_partition (settings : Settings) : Prop :=
  colon_free (TOKEN_REDIS_PREFIX settings) = true /\
  colon_free (TOKEN_REFRESH_REDIS_PREFIX settings) = true /\
  TOKEN_REDIS_PREFIX settings <> TOKEN_REFRESH_REDIS_PREFIX settings.

(** Every byte of a string satisfies a test. *)
Fixpoint str_forall (P : ascii -> bool) (s : string) : bool :=
  match s with
  | EmptyString => true
  | String c r => P c && str_forall P r
  end.

(** The error [jwt_authentication] raises for a token without an entry. *)
Definition token_expired : exn :=
  TokenError (Some "token 已过期").

(** An entry as the issuing calls write it: the value is a token, not
    empty and without a colon, and the key is made of one of the two
    configured prefixes, a colon-free subject and that token. *)
Definition module_entry (settings : Settings) (key value : string) : Prop :=
  value <> "" /\ colon_free value = true /\
  exists prefix sub,
    (prefix = TOKEN_REDIS_PREFIX settings \/
     prefix = TOKEN_REFRESH_REDIS_PREFIX settings) /\
    colon_free sub = true /\
    key = token_key prefix sub value.

(** Every entry of a store is as the issuing calls write it. *)
Definition module_entries (settings : Settings) (st : redis) : Prop :=
  forall key value ttl,
    st !! key = Some (value, ttl) -> module_entry settings key value.

(** The stores the module builds for colon-free subjects: from the empty
    store by the three issuing calls, and by the passing of time, which
    changes the ttl of an entry and removes the entry in the end. *)
Inductive module_store `{J : Jose} (settings : Settings) : redis -> Prop :=
  | ms_empty : module_store settings ∅
  | ms_access now sub expires_delta kwargs st :
      colon_free sub = true ->
      module_store settings st ->
      module_store settings
        (create_access_token settings now sub expires_delta kwargs st).2
  | ms_refresh now sub expire_time kwargs st :
      colon_free sub = true ->
      module_store settings st ->
      module_store settings
        (create_refresh_token settings now sub expire_time kwargs st).2
  | ms_new now sub refresh_token kwargs st :
      colon_free sub = true ->
      module_store settings st ->
      module_store settings
        (create_new_token settings now sub refresh_token kwargs st).2
  | ms_time st st' :
      module_store settings st ->
      (forall key value ttl,
         st' !! key = Some (value, ttl) ->
         exists ttl0, st !! key = Some (value, ttl0)) ->
      module_store settings st'.

(** ** A reference implementation of the library contract *)

(** The contract of [Jose] is inhabited: a codec that writes the key and
    the claims as a string of bits.  It makes the module executable and
    is what closed examples below run on. *)
Module Reference.

Lemma pyval_list_ind (P : pyval -> Prop) :
  P PNone ->
  (forall b, P (PBool b)) ->
  (forall z, P (PInt z)) ->
  (forall s, P (PStr s)) ->
  (forall l, Forall P l -> P (PList l)) ->
  (forall us, P (PDatetime us)) ->
  (forall us, P (PTimedelta us)) ->
  forall v, P v.
Proof.
  intros HN HB HI HS HL HD HT.
  fix IH 1. intros [ | b | z | s | l | us | us].
  - exact HN.
  - apply HB.
  - apply HI.
  - apply HS.
  - apply HL. induction l as [ | x l IHl]; constructor; [apply IH | exact IHl].
  - apply HD.
  - apply HT.
Qed.

Definition leaf : Type := bool + Z + string.

Fixpoint to_tree (v : pyval) : gen_tree leaf :=
  match v with
  | PNone => GenNode 0 []
  | PBool b => GenLeaf (inl (inl b))
  | PInt z => GenNode 1 [GenLeaf (inl (inr z))]
  | PStr s => GenLeaf (inr s)
  | PList l => GenNode 2 (map to_tree l)
  | PDatetime us => GenNode 3 [GenLeaf (inl (inr us))]
  | PTimedelta us => GenNode 4 [GenLeaf (inl (inr us))]
  end.

Fixpoint of_tree (t : gen_tree leaf) : option pyval :=
  match t with
  | GenNode 0 [] => Some PNone
  | GenLeaf (inl (inl b)) => Some (PBool b)
  | GenNode 1 [GenLeaf (inl (inr z))] => Some (PInt z)
  | GenLeaf (inr s) => Some (PStr s)
  | GenNode 2 ts => PList <$> mapM of_tree ts
  | GenNode 3 [GenLeaf (inl (inr us))] => Some (PDatetime us)
  | GenNode 4 [GenLeaf (inl (inr us))] => Some (PTimedelta us)
  | _ => None
  end.

Lemma of_to_tree (v : pyval) : of_tree (to_tree v) = Some v.
Proof.
  induction v as [ | b | z | s | l IH | us | us] using pyval_list_ind;
    try reflexivity.
  cbn [to_tree of_tree].
  assert (mapM of_tree (map to_tree l) = Some l) as ->; [ | reflexivity].
  induction IH as [ | x l Hx _ IHl]; [reflexivity | ].
  cbn. rewrite Hx. cbn. rewrite IHl. reflexivity.
Qed.

Lemma to_tree_inj (v w : pyval) : to_tree v = to_tree w -> v = w.
Proof.
  intros H. apply (f_equal of_tree) in H.
  rewrite !of_to_tree in H. congruence.
Qed.

Global Instance pyval_eq_dec : EqDecision pyval.
Proof.
  intros v w. destruct (decide (to_tree v = to_tree w)) as [H | H].
  - left. apply to_tree_inj, H.
  - right. intros ->. apply H. reflexivity.
Defined.

Global Instance pyval_countable : Countable pyval :=
  inj_countable to_tree of_tree of_to_tree.

Fixpoint pos_bits (p : positive) : string :=
  match p with
  | xH => "."
  | xO q => String "0" (pos_bits q)
  | xI q => String "1" (pos_bits q)
  end.

Fixpoint bits_pos (s : string) : option positive :=
  match s with
  | EmptyString => None
  | String c r =>
      if Ascii.eqb c "0" then xO <$> bits_pos r
      else if Ascii.eqb c "1" then xI <$> bits_pos r
      else if Ascii.eqb c "." then
        match r with EmptyString => Some xH | _ => None end
      else None
  end.

Lemma bits_pos_bits (p : positive) : bits_pos (pos_bits p) = Some p.
Proof.
  induction p as [q IH | q IH | ]; cbn; [rewrite IH .. | ]; reflexivity.
Qed.

Lemma pos_bits_nonempty (p : positive) : pos_bits p <> "".
Proof. destruct p; discriminate. Qed.

Lemma pos_bits_colon_free (p : positive) : colon_free (pos_bits p) = true.
Proof. induction p as [q IH | q IH | ]; cbn; [exact IH .. | reflexivity]. Qed.

(** The library turns a datetime expiry into whole seconds before it
    serialises the claims. *)
Definition numeric_exp (claims : pydict) : pydict :=
  match claims !! "exp" with
  | Some (PDatetime e) => <["exp" := PInt (timegm e)]> claims
  | _ => claims
  end.

Definition all_json (claims : pydict) : bool :=
  bool_decide (map_Forall (fun _ v => json_value v = true) claims).

Definition ref_encode (claims : pydict) (key alg : string) : result string :=
  if negb (String.eqb alg "HS256") then Raise JWTError
  else
    let c := numeric_exp claims in
    if all_json c then Ok (pos_bits (encode (key, c))) else Raise TypeError.

(** Validation of the registered claims: a subject must be a string, an
    expiry an integer not in the past; the other registered claims are
    refused. *)
Definition validate (c : pydict) (now : Z) : result pydict :=
  if existsb (fun k => bool_decide (is_Some (c !! k))) validated_claims
  then Raise JWTClaimsError
  else
    match c !! "sub" with
    | Some (PStr _) | None =>
        match c !! "exp" with
        | Some (PInt e) =>
            if now <=? e then Ok c else Raise ExpiredSignatureError
        | Some _ => Raise JWTClaimsError
        | None => Ok c
        end
    | Some _ => Raise JWTClaimsError
    end.

Definition ref_decode (token key : string) (algs : list string) (now : Z)
    : result pydict :=
  if negb (bool_decide ("HS256" ∈ algs)) then Raise JWTError
  else
    match bits_pos token ≫= decode with
    | Some (key', c) =>
        if String.eqb key' key then validate c now else Raise JWTError
    | None => Raise JWTError
    end.

Lemma plain_lookup (claims : pydict) (k : string) (v : pyval) :
  plain_claims claims -> claims !! k = Some v -> claim_ok k v = true.
Proof. intros Hp Hk. exact (Hp k v Hk). Qed.

Lemma plain_registered (claims : pydict) (k : string) :
  plain_claims claims -> k ∈ validated_claims -> claims !! k = None.
Proof.
  intros Hp Hk. destruct (claims !! k) as [v | ] eqn:E; [ | reflexivity].
  apply (plain_lookup _ _ _ Hp) in E.
  unfold validated_claims in Hk.
  repeat (apply elem_of_cons in Hk as [-> | Hk]; [discriminate E | ]).
  inversion Hk.
Qed.

Lemma plain_json (claims : pydict) (e : Z) :
  plain_claims claims ->
  map_Forall (fun _ v => json_value v = true)
    (<["exp" := PInt (timegm e)]> claims).
Proof.
  intros Hp k v Hk.
  destruct (decide (k = "exp")) as [-> | Hne].
  - rewrite lookup_insert_eq in Hk. injection Hk as <-. reflexivity.
  - rewrite lookup_insert_ne in Hk by congruence.
    apply (plain_lookup _ _ _ Hp) in Hk. unfold claim_ok in Hk.
    apply String.eqb_neq in Hne. rewrite Hne in Hk.
    destruct (String.eqb k "sub").
    + destruct v; try discriminate Hk; reflexivity.
    + destruct (existsb (String.eqb k) validated_claims);
        [discriminate Hk | exact Hk].
Qed.

Lemma validate_plain (claims : pydict) (e now : Z) :
  plain_claims claims ->
  validate (<["exp" := PInt (timegm e)]> claims) now =
    if now <=? timegm e
    then Ok (<["exp" := PInt (timegm e)]> claims)
    else Raise ExpiredSignatureError.
Proof.
  intros Hp. unfold validate.
  assert (existsb
            (fun k => bool_decide
               (is_Some ((<["exp" := PInt (timegm e)]> claims) !! k)))
            validated_claims = false) as ->.
  { apply not_true_is_false. intros H. apply existsb_exists in H as (k & Hk & H).
    apply bool_decide_eq_true in H. apply list_elem_of_In in Hk.
    assert (k <> "exp") as Hne.
    { intros ->. unfold validated_claims in Hk.
      repeat (apply elem_of_cons in Hk as [Hk | Hk]; [discriminate Hk | ]).
      inversion Hk. }
    rewrite lookup_insert_ne in H by congruence.
    rewrite (plain_registered _ _ Hp Hk) in H. destruct H as [? H]. discriminate H. }
  rewrite (lookup_insert_ne _ "exp" "sub") by discriminate.
  rewrite lookup_insert_eq.
  destruct (claims !! "sub") as [v | ] eqn:E; [ | reflexivity].
  apply (plain_lookup _ _ _ Hp) in E. destruct v; try discriminate E.
  reflexivity.
Qed.

Global Program Instance jose : Jose := {|
  jose_encode := ref_encode;
  jose_decode := ref_decode;
  jose_supported := fun alg => String.eqb alg "HS256"
|}.
Next Obligation.
  intros claims key alg e Halg Hp He. apply String.eqb_eq in Halg as ->.
  exists (pos_bits (encode (key, <["exp" := PInt (timegm e)]> claims))).
  split.
  - unfold ref_encode, numeric_exp. rewrite He. cbn [String.eqb negb].
    unfold all_json. rewrite bool_decide_eq_true_2; [reflexivity | ].
    apply plain_json, Hp.
  - intros now. unfold ref_decode.
    rewrite bool_decide_eq_true_2 by (apply list_elem_of_singleton; reflexivity).
    cbn [negb]. rewrite bits_pos_bits. cbn [mbind option_bind].
    rewrite decode_encode. rewrite String.eqb_refl.
    apply validate_plain, Hp.
Qed.
Next Obligation.
  intros claims key alg token H. unfold ref_encode in H.
  destruct (negb (String.eqb alg "HS256")); [discriminate H | ].
  cbv zeta in H. destruct (all_json (numeric_exp claims)); [ | discriminate H].
  injection H as <-. split; [apply pos_bits_nonempty | apply pos_bits_colon_free].
Qed.
Next Obligation.
  intros claims key alg e H. unfold ref_encode in H.
  destruct (negb (String.eqb alg "HS256")); [injection H as <-; reflexivity | ].
  cbv zeta in H. destruct (all_json (numeric_exp claims)); [discriminate H | ].
  injection H as <-. reflexivity.
Qed.

End Reference.

(** ** Example configuration *)

(** A configuration to run the module on: a day of access lifetime, a week
    of refresh lifetime. *)
Definition example_settings : Settings := {|
  TOKEN_SECRET_KEY := "secret";
  TOKEN_ALGORITHM := "HS256";
  TOKEN_EXPIRE_SECONDS := 86400;
  TOKEN_REFRESH_EXPIRE_SECONDS := 604800;
  TOKEN_REDIS_PREFIX := "fba_token";
  TOKEN_REFRESH_REDIS_PREFIX := "fba_refresh_token"
|}.

(** The same with an access prefix that holds a colon and lies under the
    refresh prefix. *)
Definition nested_settings : Settings := {|
  TOKEN_SECRET_KEY := "secret";
  TOKEN_ALGORITHM := "HS256";
  TOKEN_EXPIRE_SECONDS := 86400;
  TOKEN_REFRESH_EXPIRE_SECONDS := 604800;
  TOKEN_REDIS_PREFIX := "fba:token";
  TOKEN_REFRESH_REDIS_PREFIX := "fba"
|}.

(** The token the reference codec issues for a claims dictionary. *)
Definition example_token (claims : pydict) : string :=
  match Reference.ref_encode claims "secret" "HS256" with
  | Ok token => token
  | Raise _ => ""
  end.

Definition roles_1_2 : pydict := {["role_ids" := PList [PInt 1; PInt 2]]}.

Definition single_session : pydict :=
  <["multi_login" := PBool false]> roles_1_2.

(** A store that already holds a session of subject 42. *)
Definition one_session : redis := {["fba_token:42:old" := ("old", 60)]}.

(** A user table for the examples: user 42 is an active superuser, user 7
    is locked.  The lookup finds a row by an integer id. *)
Definition example_users : gmap Z models.User :=
  {[42 := {| models.id := 42; models.is_active := true;
             models.is_superuser := true |};
    7 := {| models.id := 7; models.is_active := false;
            models.is_superuser := false |}]}.

Definition example_lookup (db : gmap Z models.User) (user_id : pyval)
    : option models.User :=
  match user_id with
  | PInt z => db !! z
  | _ => None
  end.

(** * Properties *)

(** ** Whole seconds of a duration *)

Lemma MICRO_pos : 0 < MICRO.
Proof. reflexivity. Qed.

Lemma whole_seconds_bounds (a : Z) :
  a / MICRO <= whole_seconds a <= a / MICRO + 1.
Proof. unfold whole_seconds. cbv zeta. case_match; lia. Qed.

Lemma whole_seconds_mul (n : Z) : whole_seconds (n * MICRO) = n.
Proof.
  unfold whole_seconds. cbv zeta.
  rewrite Z.mod_mul, Z.div_mul by discriminate. reflexivity.
Qed.

Lemma whole_seconds_mono (a b : Z) :
  a <= b -> whole_seconds a <= whole_seconds b.
Proof.
  intros Hab.
  pose proof (Z.div_le_mono a b MICRO MICRO_pos Hab) as Hk.
  pose proof (whole_seconds_bounds a) as Ha.
  pose proof (whole_seconds_bounds b) as Hb.
  destruct (Z.eq_dec (a / MICRO) (b / MICRO)) as [E | E]; [ | lia].
  assert (a mod MICRO <= b mod MICRO) as Hr.
  { rewrite !Z.mod_eq by discriminate. rewrite E. lia. }
  pose proof (Z.mod_pos_bound b MICRO MICRO_pos) as Hrb.
  unfold whole_seconds. cbv zeta. rewrite <- E.
  assert (0 <= 2 ^ (53 - Z.log2 (a / MICRO))) as Hc by apply Z.pow_nonneg, Z.le_0_2.
  destruct ((0 <? a mod MICRO) && (a / MICRO <? 2 ^ 47)
            && ((MICRO - a mod MICRO) * 2 ^ (53 - Z.log2 (a / MICRO)) <? MICRO))
    eqn:Ua; [ | case_match; lia].
  apply andb_true_iff in Ua as [Ua U3]. apply andb_true_iff in Ua as [U1 U2].
  apply Z.ltb_lt in U1, U3. rewrite U2.
  assert ((0 <? b mod MICRO) = true) as -> by (apply Z.ltb_lt; lia).
  assert (((MICRO - b mod MICRO) * 2 ^ (53 - Z.log2 (a / MICRO)) <? MICRO)
          = true) as ->.
  { apply Z.ltb_lt. nia. }
  cbn [andb]. lia.
Qed.

(** Under 2^34 seconds the float is never rounded up to the next second. *)
Lemma whole_seconds_exact (a : Z) :
  0 <= a < 2 ^ 34 * MICRO -> whole_seconds a = a / MICRO.
Proof.
  intros [H0 Hlt]. unfold whole_seconds. cbv zeta.
  pose proof (Z.mod_pos_bound a MICRO MICRO_pos) as Hr.
  assert (0 <= a / MICRO < 2 ^ 34) as [Hk0 Hk].
  { split; [apply Z.div_pos; [exact H0 | exact MICRO_pos] | ].
    apply Z.div_lt_upper_bound; [exact MICRO_pos | lia]. }
  assert (2 ^ 20 <= 2 ^ (53 - Z.log2 (a / MICRO))) as Hc.
  { apply Z.pow_le_mono_r; [lia | ].
    destruct (Z.eq_dec (a / MICRO) 0) as [-> | Hne]; [cbn; lia | ].
    assert (Z.log2 (a / MICRO) < 34) by (apply Z.log2_lt_pow2; lia). lia. }
  assert (((MICRO - a mod MICRO) * 2 ^ (53 - Z.log2 (a / MICRO)) <? MICRO)
          = false) as ->.
  { apply Z.ltb_ge. change (2 ^ 20) with 1048576 in Hc. unfold MICRO in *. nia. }
  rewrite andb_false_r. reflexivity.
Qed.

Lemma int_total_seconds_mul (n : Z) :
  int_total_seconds (n * MICRO) = n.
Proof.
  unfold int_total_seconds.
  rewrite Z.abs_mul, (Z.abs_eq MICRO) by discriminate.
  rewrite whole_seconds_mul, Z.sgn_mul. change (Z.sgn MICRO) with 1.
  rewrite Z.mul_1_r. destruct n; reflexivity.
Qed.

Lemma int_total_seconds_nonneg (td : Z) :
  0 <= td -> int_total_seconds td = whole_seconds td.
Proof.
  intros H. unfold int_total_seconds. rewrite Z.abs_eq by exact H.
  destruct (Z.eq_dec td 0) as [-> | Hne]; [reflexivity | ].
  rewrite Z.sgn_pos by lia. apply Z.mul_1_l.
Qed.

Lemma int_total_seconds_opp (td : Z) :
  int_total_seconds (- td) = - int_total_seconds td.
Proof.
  unfold int_total_seconds. rewrite Z.abs_opp, Z.sgn_opp. lia.
Qed.

Lemma whole_seconds_nonneg (a : Z) : 0 <= a -> 0 <= whole_seconds a.
Proof.
  intros H. pose proof (whole_seconds_bounds a).
  pose proof (Z.div_pos a MICRO H MICRO_pos). lia.
Qed.

Lemma int_total_seconds_neg (td : Z) :
  td <= 0 -> int_total_seconds td = - whole_seconds (- td).
Proof.
  intros H. rewrite <- (int_total_seconds_nonneg (- td)) by lia.
  rewrite int_total_seconds_opp. lia.
Qed.

Lemma int_total_seconds_mono (a b : Z) :
  a <= b -> int_total_seconds a <= int_total_seconds b.
Proof.
  intros Hab.
  destruct (Z.le_gt_cases 0 a) as [Ha | Ha].
  - rewrite !int_total_seconds_nonneg by lia. apply whole_seconds_mono, Hab.
  - rewrite (int_total_seconds_neg a) by lia.
    destruct (Z.le_gt_cases 0 b) as [Hb | Hb].
    + rewrite (int_total_seconds_nonneg b) by exact Hb.
      pose proof (whole_seconds_nonneg (- a) ltac:(lia)).
      pose proof (whole_seconds_nonneg b Hb). lia.
    + rewrite (int_total_seconds_neg b) by lia.
      pose proof (whole_seconds_mono (- b) (- a) ltac:(lia)). lia.
Qed.

(** Under 2^34 seconds either way, [int(td.total_seconds())] is the
    quotient truncated toward zero. *)
Lemma int_total_seconds_exact (td : Z) :
  Z.abs td < 2 ^ 34 * 1000000 ->
  int_total_seconds td = Z.quot td 1000000.
Proof.
  intros H. unfold int_total_seconds.
  rewrite whole_seconds_exact by (split; [apply Z.abs_nonneg | exact H]).
  rewrite Z.quot_div by discriminate. change (Z.sgn 1000000) with 1.
  change (Z.abs 1000000) with MICRO. lia.
Qed.

(** The whole seconds of a non-negative duration, or one more. *)
Lemma int_total_seconds_bounds (td : Z) :
  0 <= td -> td / 1000000 <= int_total_seconds td <= td / 1000000 + 1.
Proof.
  intros H. rewrite int_total_seconds_nonneg by exact H.
  apply whole_seconds_bounds.
Qed.

Lemma int_total_seconds_pos (td : Z) :
  0 < int_total_seconds td <-> 1000000 <= td.
Proof.
  split; intros H.
  - destruct (Z.le_gt_cases 1000000 td) as [ | Hlt]; [assumption | exfalso].
    pose proof (int_total_seconds_mono td 999999 ltac:(lia)) as Hm.
    change (int_total_seconds 999999) with 0 in Hm. lia.
  - pose proof (int_total_seconds_mono 1000000 td H) as Hm.
    change (int_total_seconds 1000000) with 1 in Hm. lia.
Qed.

(** The float at work: a duration of 2^34 seconds and 999999 microseconds
    is rounded up to the next second, one microsecond less is not, and a
    negative duration is truncated toward zero. *)
Example int_total_seconds_values :
  int_total_seconds (2 ^ 34 * 1000000 + 999999) = 2 ^ 34 + 1 /\
  int_total_seconds (2 ^ 34 * 1000000 + 999998) = 2 ^ 34 /\
  int_total_seconds 1999999 = 1 /\
  int_total_seconds (- 1500000) = - 1.
Proof. repeat split. Qed.

(** [int(td.total_seconds())] is the truncated quotient or, from 2^34
    seconds on, the next whole second away from zero. *)
Lemma int_total_seconds_near (td : Z) :
  Z.abs (int_total_seconds td - Z.quot td 1000000) <= 1.
Proof.
  destruct (Z.le_gt_cases 0 td) as [H | H].
  - pose proof (int_total_seconds_bounds td H).
    rewrite Z.quot_div_nonneg by lia. lia.
  - rewrite (int_total_seconds_neg td) by lia.
    pose proof (whole_seconds_bounds (- td)) as Hb. unfold MICRO in Hb.
    replace td with (- - td) at 2 by lia.
    rewrite Z.quot_opp_l by discriminate.
    rewrite Z.quot_div_nonneg by lia. lia.
Qed.


(** ** Bearer extraction *)

Lemma N_of_ascii_lower (a : ascii) :
  N_of_ascii (ascii_lower a) =
    (if (65 <=? N_of_ascii a) && (N_of_ascii a <=? 90)
     then N_of_ascii a + 32 else N_of_ascii a)%N.
Proof.
  unfold ascii_lower.
  destruct ((65 <=? N_of_ascii a) && (N_of_ascii a <=? 90))%N eqn:E;
    [ | reflexivity].
  apply andb_true_iff in E as [_ E]. apply N.leb_le in E.
  apply N_ascii_embedding. lia.
Qed.

Lemma N_of_ascii_inj (a b : ascii) : N_of_ascii a = N_of_ascii b -> a = b.
Proof.
  intros H. rewrite <- (ascii_N_embedding a), <- (ascii_N_embedding b).
  f_equal. exact H.
Qed.

Ltac case_upper x :=
  destruct (N.leb_spec 65 (N_of_ascii x)), (N.leb_spec (N_of_ascii x) 90);
  cbn [andb] in *.

Lemma ascii_lower_ci (a b : ascii) :
  ascii_lower a = ascii_lower b <-> ascii_ci a b.
Proof.
  unfold ascii_ci. cbv zeta.
  pose proof (N_of_ascii_lower a) as Ha. pose proof (N_of_ascii_lower b) as Hb.
  split.
  - intros H. rewrite H in Ha. rewrite Ha in Hb. clear H Ha.
    case_upper a; case_upper b; lia.
  - intros H. apply N_of_ascii_inj. rewrite Ha, Hb. clear Ha Hb.
    case_upper a; case_upper b; lia.
Qed.

Lemma str_lower_ci (s t : string) : str_lower s = str_lower t <-> ci_eq s t.
Proof.
  split.
  - revert t. induction s as [ | a s IH]; intros [ | b t] H;
      try discriminate H; [constructor | ].
    cbn in H. injection H as Hc Hs. constructor.
    + apply ascii_lower_ci, Hc.
    + apply IH, Hs.
  - induction 1 as [ | a b s t Hc _ IH]; [reflexivity | ].
    cbn. f_equal; [apply ascii_lower_ci, Hc | exact IH].
Qed.

Lemma scheme_is_bearer (scheme : string) :
  String.eqb (str_lower scheme) "bearer" = true <-> ci_eq scheme "bearer".
Proof.
  rewrite String.eqb_eq. change "bearer" with (str_lower "bearer") at 1.
  apply str_lower_ci.
Qed.

Lemma app_cons (c : ascii) (s t : string) :
  String c s +:+ t = String c (s +:+ t).
Proof. reflexivity. Qed.

Lemma str_partition_app (sep : ascii) (a b : string) :
  str_forall (fun c => negb (Ascii.eqb c sep)) a = true ->
  str_partition sep (a +:+ String sep b) = (a, true, b).
Proof.
  induction a as [ | c a IH]; intros H.
  - change ("" +:+ String sep b) with (String sep b).
    cbn [str_partition]. rewrite Ascii.eqb_refl. reflexivity.
  - cbn [str_forall] in H. apply andb_true_iff in H as [Hc H].
    rewrite app_cons. cbn [str_partition].
    apply negb_true_iff in Hc. rewrite Hc, (IH H). reflexivity.
Qed.

(** A byte that equals a letter up to case is no space. *)
Lemma ascii_ci_not_space (a b : ascii) :
  ascii_ci a b -> (65 <= N_of_ascii b)%N -> negb (Ascii.eqb a " ") = true.
Proof.
  unfold ascii_ci. cbv zeta. intros H Hb.
  apply negb_true_iff, Ascii.eqb_neq. intros ->.
  change (N_of_ascii " ") with 32%N in H. lia.
Qed.

Lemma ci_eq_no_space (s t : string) :
  ci_eq s t ->
  str_forall (fun c => (65 <=? N_of_ascii c)%N) t = true ->
  str_forall (fun c => negb (Ascii.eqb c " ")) s = true.
Proof.
  induction 1 as [ | a b s t Hc _ IH]; [reflexivity | ].
  cbn [str_forall]. intros H. apply andb_true_iff in H as [Hb H].
  apply N.leb_le in Hb.
  rewrite (ascii_ci_not_space a b Hc Hb). exact (IH H).
Qed.

Lemma str_partition_spec (sep : ascii) (s a b : string) (found : bool) :
  str_partition sep s = (a, found, b) ->
  str_forall (fun c => negb (Ascii.eqb c sep)) a = true /\
  s = (if found then a +:+ String sep b else a) /\
  (found = false -> b = "").
Proof.
  revert a found b. induction s as [ | c s IH]; intros a found b H.
  - cbn in H. injection H as <- <- <-. repeat split.
  - cbn [str_partition] in H. destruct (Ascii.eqb c sep) eqn:E.
    + injection H as <- <- <-. apply Ascii.eqb_eq in E as ->.
      repeat split. discriminate.
    + destruct (str_partition sep s) as [[a' found'] b'] eqn:P.
      injection H as <- <- <-.
      destruct (IH a' found' b' eq_refl) as (Ha & Hs & Hb).
      split; [cbn [str_forall]; rewrite E; exact Ha | ].
      split; [ | exact Hb].
      destruct found'; [rewrite app_cons | ]; f_equal; exact Hs.
Qed.

Lemma str_partition_none (sep : ascii) (a : string) :
  str_forall (fun c => negb (Ascii.eqb c sep)) a = true ->
  str_partition sep a = (a, false, "").
Proof.
  induction a as [ | c a IH]; intros H; [reflexivity | ].
  cbn [str_forall] in H. apply andb_true_iff in H as [Hc H].
  cbn [str_partition]. apply negb_true_iff in Hc.
  rewrite Hc, (IH H). reflexivity.
Qed.

(** C7. [get_token] returns a token exactly when the header is present and
    the text before its first space equals [bearer] up to case: the header
    is that scheme, one space and the token returned, or the scheme alone,
    for which the empty token is returned.  In every other case it raises
    [TokenError]; the header [Basic abc123] does. *)
Theorem get_token_bearer_only :
  forall authorization : option string,
    (forall token,
       get_token authorization = Ok token <->
       exists scheme,
         ci_eq scheme "bearer" /\
         (authorization = Some (scheme +:+ " " +:+ token) \/
          (authorization = Some scheme /\ token = ""))) /\
    ((forall token, get_token authorization <> Ok token) ->
       get_token authorization = Raise (TokenError None)) /\
    get_token (Some "Basic abc123") = Raise (TokenError None) /\
    get_token (Some "bEARER abc123") = Ok "abc123" /\
    get_token None = Raise (TokenError None).
Proof.
  intros authorization.
  split; [ | split; [ | repeat split]].
  - intros token. split.
    + unfold get_token, get_authorization_scheme_param.
      destruct authorization as [[ | c h] | ]; [discriminate .. | | discriminate].
      destruct (str_partition " " (String c h)) as [[scheme found] param] eqn:P.
      cbn [truthy_opt_str negb orb].
      destruct (String.eqb (str_lower scheme) "bearer") eqn:Hs; [ | discriminate].
      cbn [negb]. intros H. injection H as <-.
      apply scheme_is_bearer in Hs. exists scheme. split; [exact Hs | ].
      destruct (str_partition_spec _ _ _ _ _ P) as (_ & Hh & Hb).
      destruct found.
      * left. rewrite Hh. reflexivity.
      * right. rewrite Hh, (Hb eq_refl). split; reflexivity.
    + intros (scheme & Hci & [-> | [-> ->]]).
      * pose proof (ci_eq_no_space _ _ Hci eq_refl) as Hns.
        unfold get_token, get_authorization_scheme_param.
        change (scheme +:+ " " +:+ token) with (scheme +:+ String " " token).
        inversion Hci as [ | a b s t Ha Hs E1 E2]; subst.
        rewrite app_cons. rewrite <- app_cons.
        rewrite str_partition_app by exact Hns.
        rewrite app_cons. cbn [truthy_opt_str negb orb].
        apply scheme_is_bearer in Hci. rewrite Hci. reflexivity.
      * pose proof (ci_eq_no_space _ _ Hci eq_refl) as Hns.
        unfold get_token, get_authorization_scheme_param.
        inversion Hci as [ | a b s t Ha Hs E1 E2]; subst.
        rewrite str_partition_none by exact Hns.
        cbn [truthy_opt_str negb orb].
        apply scheme_is_bearer in Hci. rewrite Hci. reflexivity.
  - intros Hno. unfold get_token in *.
    destruct (get_authorization_scheme_param authorization) as [scheme param].
    destruct (negb (truthy_opt_str authorization)
              || negb (String.eqb (str_lower scheme) "bearer"));
      [reflexivity | ].
    destruct (Hno param eq_refl).
Qed.

(** ** Issuance: what a call does to the store *)

Section Issuance.

Context {J : Jose}.
Variable settings : Settings.

Lemma create_access_token_run now sub expires_delta kwargs st :
  create_access_token settings now sub expires_delta kwargs st =
    let '(expire, ttl) := access_expiry settings now expires_delta in
    match jose_encode (issued_claims expire sub kwargs)
            (TOKEN_SECRET_KEY settings) (TOKEN_ALGORITHM settings) with
    | Ok token =>
        (Ok (token, expire),
         <[token_key (TOKEN_REDIS_PREFIX settings) sub token := (token, ttl)]>
           (after_delete (dict_get kwargs "multi_login")
              (subject_prefix (TOKEN_REDIS_PREFIX settings) sub) st))
    | Raise e => (Raise e, st)
    end.
Proof.
  unfold create_access_token, access_expiry, issued_claims, after_delete.
  destruct expires_delta as [d | ]; cbn [truthy_delta];
    [change (default 0 (Some d)) with d; destruct (d =? 0); cbn [negb] | ];
    cbn [dict_pop]; cbv zeta;
    unfold mbind, M_bind, lift;
    (match goal with |- context [jose_encode ?c ?k ?a] =>
       destruct (jose_encode c k a) as [token | e] end);
    try reflexivity;
    destruct (is_False (dict_get kwargs "multi_login")); reflexivity.
Qed.

Lemma create_refresh_token_run now sub expire_time kwargs st :
  create_refresh_token settings now sub expire_time kwargs st =
    let '(expire, ttl) := refresh_expiry settings now expire_time in
    match jose_encode (issued_claims expire sub kwargs)
            (TOKEN_SECRET_KEY settings) (TOKEN_ALGORITHM settings) with
    | Ok token =>
        (Ok (token, expire),
         <[token_key (TOKEN_REFRESH_REDIS_PREFIX settings) sub token
             := (token, ttl)]>
           (after_delete (dict_get kwargs "multi_login")
              (subject_prefix (TOKEN_REFRESH_REDIS_PREFIX settings) sub) st))
    | Raise e => (Raise e, st)
    end.
Proof.
  unfold create_refresh_token, refresh_expiry, issued_claims, after_delete.
  destruct expire_time as [t | ];
    cbn [dict_pop]; cbv zeta;
    unfold mbind, M_bind, lift;
    (match goal with |- context [jose_encode ?c ?k ?a] =>
       destruct (jose_encode c k a) as [token | e] end);
    try reflexivity;
    destruct (is_False (dict_get kwargs "multi_login")); reflexivity.
Qed.

End Issuance.

(** ** Refresh tokens anchored at a supplied time *)

(** C2. With an anchor time [t], [create_refresh_token] returns the expiry
    [t + TOKEN_REFRESH_EXPIRE_SECONDS] (in microseconds: times 10^6),
    whatever the current time, and registers the token with the seconds
    from now to that expiry as ttl: the span in microseconds divided by 10^6
    and truncated toward zero, exactly so for a span under 2^34 seconds
    (544 years), and never more than one second away from it beyond, where
    the float of [total_seconds()] lacks the bits for the microseconds. *)
Theorem create_refresh_token_anchor `{J : Jose} :
  forall (settings : Settings) (now t : Z) (sub : string) (kwargs : pydict)
         (st : redis) (token : string),
    let expire := t + TOKEN_REFRESH_EXPIRE_SECONDS settings * 1000000 in
    let remaining := expire - now in
    jose_encode (issued_claims expire sub kwargs)
      (TOKEN_SECRET_KEY settings) (TOKEN_ALGORITHM settings) = Ok token ->
    exists st' ttl,
      create_refresh_token settings now sub (Some t) kwargs st =
        (Ok (token, expire), st') /\
      st' !! token_key (TOKEN_REFRESH_REDIS_PREFIX settings) sub token =
        Some (token, ttl) /\
      (Z.abs remaining < 2 ^ 34 * 1000000 ->
         ttl = Z.quot remaining 1000000) /\
      Z.abs (ttl - Z.quot remaining 1000000) <= 1.
Proof.
  intros settings now t sub kwargs st token expire remaining Henc.
  rewrite create_refresh_token_run. cbn [refresh_expiry].
  change (timedelta_seconds (TOKEN_REFRESH_EXPIRE_SECONDS settings))
    with (TOKEN_REFRESH_EXPIRE_SECONDS settings * 1000000).
  fold expire. fold remaining. rewrite Henc.
  eexists _, _. split; [reflexivity | ].
  split; [apply lookup_insert_eq | ].
  split; [apply int_total_seconds_exact | apply int_total_seconds_near].
Qed.

(** Anchor at second 5, a week of lifetime, issued at second 9: the expiry
    is second 604805 and the ttl 604796 seconds. *)
Lemma create_refresh_token_anchor_witness :
  let token := example_token (issued_claims 604805000000 "7" roles_1_2) in
  exists st',
    create_refresh_token (J := Reference.jose) example_settings 9000000 "7"
      (Some 5000000) roles_1_2 ∅ = (Ok (token, 604805000000), st') /\
    st' !! token_key "fba_refresh_token" "7" token = Some (token, 604796).
Proof.
  intros token.
  destruct (create_refresh_token_anchor (J := Reference.jose) example_settings
              9000000 5000000 "7" roles_1_2 ∅ token)
    as (st' & ttl & H1 & H2 & H3 & _).
  - vm_compute. reflexivity.
  - exists st'. split; [exact H1 | ].
    change (TOKEN_REFRESH_REDIS_PREFIX example_settings)
      with "fba_refresh_token" in H2.
    rewrite H2, H3; [reflexivity | ]. vm_compute. reflexivity.
Defined.

(** ** Decoding *)

Lemma except_catches_all (e : exn) :
  existsb (isinstance e) [C_JWTError; C_ValidationError; C_Exception] = true.
Proof. destruct e; reflexivity. Qed.

(** What [jwt_decode] computes, with the [try] statement resolved. *)
Lemma jwt_decode_unfold `{J : Jose} settings utcnow token :
  jwt_decode settings utcnow token =
    match jose_decode token (TOKEN_SECRET_KEY settings)
            [TOKEN_ALGORITHM settings] utcnow with
    | Raise _ => Raise (TokenError None)
    | Ok payload =>
        match py_int (dict_get payload "sub"),
              py_list (dict_get payload "role_ids") with
        | Ok user_id, Ok role_ids =>
            if (user_id =? 0) || match role_ids with [] => true | _ => false end
            then Raise (TokenError None)
            else Ok (user_id, role_ids)
        | _, _ => Raise (TokenError None)
        end
    end.
Proof.
  unfold jwt_decode, try_except, mbind, result_bind, res_bind.
  destruct (jose_decode _ _ _ _) as [payload | e];
    [ | rewrite except_catches_all; reflexivity].
  destruct (py_int _) as [user_id | e];
    [ | rewrite except_catches_all; reflexivity].
  destruct (py_list _) as [role_ids | e];
    [ | rewrite except_catches_all; reflexivity].
  cbn [py_truthy]. rewrite negb_involutive.
  destruct (user_id =? 0), role_ids; reflexivity.
Qed.

(** C3. [jwt_decode] either returns or raises [TokenError]: whatever the
    library raises (bad signature, malformed token, expired token) becomes
    [TokenError], and so does a payload whose [sub] or [role_ids] is missing
    or empty.  No other exception leaves the function. *)
Theorem jwt_decode_only_token_error `{J : Jose} :
  forall (settings : Settings) (utcnow : Z) (token : string),
    let lib := jose_decode token (TOKEN_SECRET_KEY settings)
                 [TOKEN_ALGORITHM settings] utcnow in
    ((exists user_id role_ids,
        jwt_decode settings utcnow token = Ok (user_id, role_ids) /\
        user_id <> 0 /\ role_ids <> []) \/
     jwt_decode settings utcnow token = Raise (TokenError None)) /\
    (forall e, lib = Raise e ->
       jwt_decode settings utcnow token = Raise (TokenError None)) /\
    (forall payload, lib = Ok payload ->
       missing_or_empty (payload !! "sub") \/
       missing_or_empty (payload !! "role_ids") ->
       jwt_decode settings utcnow token = Raise (TokenError None)).
Proof.
  intros settings utcnow token lib. subst lib.
  rewrite jwt_decode_unfold.
  split; [ | split].
  - destruct (jose_decode _ _ _ _) as [payload | e]; [ | right; reflexivity].
    destruct (py_int _) as [user_id | e]; [ | right; reflexivity].
    destruct (py_list _) as [role_ids | e]; [ | right; reflexivity].
    destruct (Z.eqb_spec user_id 0) as [ | Hne]; [right; reflexivity | ].
    destruct role_ids as [ | r role_ids]; [right; reflexivity | ].
    left. exists user_id, (r :: role_ids). repeat split; [exact Hne | discriminate].
  - intros e ->. reflexivity.
  - intros payload -> [Hs | Hr].
    + unfold dict_get.
      destruct Hs as [-> | [-> | [-> | ->]]]; cbn;
        try reflexivity; destruct (py_list _); reflexivity.
    + unfold dict_get.
      destruct (py_int _) as [user_id | e]; [ | reflexivity].
      destruct Hr as [-> | [-> | [-> | ->]]]; cbn;
        try reflexivity; rewrite orb_true_r; reflexivity.
Qed.

(** An issued token presented after its embedded expiry is refused, whatever
    the store holds. *)
Lemma jwt_decode_after_expiry `{J : Jose} settings utcnow claims e token :
  jose_supported (TOKEN_ALGORITHM settings) = true ->
  plain_claims claims ->
  claims !! "exp" = Some (PDatetime e) ->
  jose_encode claims (TOKEN_SECRET_KEY settings) (TOKEN_ALGORITHM settings)
    = Ok token ->
  timegm e < utcnow ->
  jwt_decode settings utcnow token = Raise (TokenError None).
Proof.
  intros Hsup Hplain Hexp Henc Hlate.
  destruct (jose_contract claims (TOKEN_SECRET_KEY settings)
              (TOKEN_ALGORITHM settings) e Hsup Hplain Hexp)
    as (token' & Henc' & Hdec).
  rewrite Henc in Henc'. injection Henc' as <-.
  rewrite jwt_decode_unfold, Hdec.
  destruct (Z.leb_spec utcnow (timegm e)); [lia | reflexivity].
Qed.

(** C10. A token whose [sub] claim reads as the integer 0 is refused with
    [TokenError], whatever else it holds. *)
Theorem jwt_decode_rejects_zero_subject `{J : Jose} :
  forall (settings : Settings) (utcnow : Z) (token : string) (payload : pydict),
    jose_decode token (TOKEN_SECRET_KEY settings)
      [TOKEN_ALGORITHM settings] utcnow = Ok payload ->
    py_int (dict_get payload "sub") = Ok 0 ->
    jwt_decode settings utcnow token = Raise (TokenError None).
Proof.
  intros settings utcnow token payload Hlib Hsub.
  rewrite jwt_decode_unfold, Hlib, Hsub.
  destruct (py_list _); reflexivity.
Qed.

(** A token with a valid signature, an expiry in the future, roles 1 and 2,
    and subject ["0"]. *)
Lemma jwt_decode_rejects_zero_subject_witness :
  let claims := issued_claims 86400000000 "0" roles_1_2 in
  jwt_decode (J := Reference.jose) example_settings 10 (example_token claims)
    = Raise (TokenError None).
Proof.
  intros claims.
  apply (jwt_decode_rejects_zero_subject (J := Reference.jose)
           example_settings 10 (example_token claims)
           (<["exp" := PInt 86400]> claims)).
  - vm_compute. reflexivity.
  - vm_compute. reflexivity.
Defined.

(** ** Resolving the current user *)

(** C6. [get_current_user] raises [TokenError] when the lookup finds no
    user, [AuthorizationError] when the user is not active, and returns the
    user otherwise; the two errors are of different classes. *)
Theorem get_current_user_outcomes :
  forall (DB : Type) (get_with_relation : DB -> pyval -> option models.User)
         (db : DB) (data : pydict),
    let found := get_with_relation db (dict_get data "sub") in
    let outcome := get_current_user DB get_with_relation db data in
    (found = None -> outcome = Raise (TokenError None)) /\
    (forall user, found = Some user -> models.is_active user = false ->
       is_authorization_error outcome /\ ~ is_token_error outcome) /\
    (forall user, found = Some user -> models.is_active user = true ->
       outcome = Ok user) /\
    (forall m m', isinstance (TokenError m) C_AuthorizationError = false /\
                  isinstance (AuthorizationError m') C_TokenError = false).
Proof.
  intros DB get_with_relation db data found outcome.
  subst found outcome. unfold get_current_user.
  split; [ | split; [ | split]].
  - intros ->. reflexivity.
  - intros user -> ->. split; [exact I | intros []].
  - intros user -> ->. reflexivity.
  - intros m m'. split; reflexivity.
Qed.

(** ** Round trip of an issued access token *)

Lemma issued_claims_kwarg expire sub (kwargs : pydict) k v :
  k <> "multi_login" -> kwargs !! k = Some v ->
  issued_claims expire sub kwargs !! k = Some v.
Proof.
  intros Hk Hv. unfold issued_claims, to_encode.
  apply lookup_union_Some_l. rewrite lookup_delete_ne by congruence. exact Hv.
Qed.

Lemma issued_claims_sub expire sub (kwargs : pydict) :
  kwargs !! "sub" = None ->
  issued_claims expire sub kwargs !! "sub" = Some (PStr sub).
Proof.
  intros Hs. unfold issued_claims, to_encode.
  rewrite lookup_union_r by (rewrite lookup_delete_ne by discriminate; exact Hs).
  apply lookup_insert_eq.
Qed.

(** What [int_of_str] reads is ASCII. *)

Lemma int_char_ascii (c : ascii) :
  int_char c = true -> (N_of_ascii c < 128)%N.
Proof.
  destruct c as [[] [] [] [] [] [] [] []]; vm_compute; congruence.
Qed.

Lemma str_forall_rev_app_eq (P : ascii -> bool) (s t : string) :
  str_forall P (String.rev_app s t) = str_forall P s && str_forall P t.
Proof.
  revert t. induction s as [ | c s IH]; intros t; [reflexivity | ].
  cbn [String.rev_app str_forall]. rewrite IH. cbn [str_forall].
  destruct (P c), (str_forall P s); reflexivity.
Qed.

Lemma str_forall_rev (P : ascii -> bool) (s : string) :
  str_forall P (String.rev s) = str_forall P s.
Proof.
  unfold String.rev. rewrite str_forall_rev_app_eq. apply andb_true_r.
Qed.

Lemma str_forall_lstrip (s : string) :
  str_forall int_char (str_lstrip s) = true -> str_forall int_char s = true.
Proof.
  induction s as [ | c s IH]; [reflexivity | ].
  cbn [str_lstrip]. destruct (is_py_space c) eqn:E; [ | exact id].
  intros H. cbn [str_forall]. rewrite (IH H).
  unfold int_char. rewrite E. reflexivity.
Qed.

Lemma digit_char (c : ascii) (d : Z) :
  digit_of c = Some d -> int_char c = true.
Proof.
  intros H. unfold int_char. rewrite H.
  rewrite (bool_decide_eq_true_2 _ (mk_is_Some _ _ eq_refl)).
  rewrite orb_true_r. reflexivity.
Qed.

Lemma digits_go_chars (k : nat) :
  forall (r : string) (acc z : Z),
    (String.length r <= k)%nat ->
    digits_go acc r = Some z -> str_forall int_char r = true.
Proof.
  induction k as [ | k IH]; intros [ | c r] acc z Hk H;
    try reflexivity; cbn [String.length] in Hk; [lia | ].
  cbn [digits_go] in H. cbn [str_forall].
  destruct (digit_of c) as [d | ] eqn:Ec.
  - rewrite (digit_char _ _ Ec). apply (IH r (10 * acc + d) z); [lia | exact H].
  - destruct (Ascii.eqb c "_") eqn:Eu; [ | discriminate H].
    assert (int_char c = true) as ->
      by (unfold int_char; rewrite Eu, !orb_true_r; reflexivity).
    destruct r as [ | c' r']; [discriminate H | ].
    destruct (digit_of c') as [d' | ] eqn:Ec'; [ | discriminate H].
    cbn [str_forall]. rewrite (digit_char _ _ Ec').
    cbn [String.length] in Hk. apply (IH r' (10 * acc + d') z); [lia | exact H].
Qed.

Lemma digits_chars (s : string) (z : Z) :
  digits s = Some z -> str_forall int_char s = true.
Proof.
  destruct s as [ | c r]; [discriminate | ].
  cbn [digits str_forall]. destruct (digit_of c) as [d | ] eqn:Ec;
    [ | discriminate].
  intros H. rewrite (digit_char _ _ Ec).
  exact (digits_go_chars _ r d z (le_n _) H).
Qed.

(** A string [int_of_str] reads holds bytes of ASCII only: blanks, digits,
    underscores and signs. *)
Lemma int_of_str_ascii (s : string) (n : Z) :
  int_of_str s = Some n ->
  str_forall (fun c => (N_of_ascii c <? 128)%N) s = true.
Proof.
  intros H.
  assert (str_forall int_char s = true) as Hs.
  { apply str_forall_lstrip. rewrite <- str_forall_rev.
    apply str_forall_lstrip. rewrite <- str_forall_rev.
    fold (str_strip s). unfold int_of_str in H.
    destruct (str_strip s) as [ | c r] eqn:E; [discriminate H | ].
    assert (forall z, digits (String c r) = Some z ->
              str_forall int_char (String c r) = true) as Hd
      by (intros z; apply digits_chars).
    destruct (digits r) as [z | ] eqn:Ez.
    - assert (int_char c = true ->
              str_forall int_char (String c r) = true) as Hsign.
      { intros Hc. cbn [str_forall]. rewrite Hc.
        exact (digits_chars _ _ Ez). }
      destruct c as [[] [] [] [] [] [] [] []];
        solve [exact (Hd _ H) | exact (Hsign eq_refl)].
    - destruct c as [[] [] [] [] [] [] [] []];
        solve [exact (Hd _ H) | discriminate H]. }
  clear H. induction s as [ | c s IH]; [reflexivity | ].
  cbn [str_forall] in *. apply andb_true_iff in Hs as [Hc Hs].
  rewrite (IH Hs), andb_true_r.
  apply N.ltb_lt, int_char_ascii, Hc.
Qed.

(** C1, as the code has it.  A valid subject is a string of at most 4300
    characters that [int_of_str] reads as a non-zero integer (blanks, sign,
    digits and underscores of ASCII).  An access token issued for it, with a
    non-empty list of role ids and plain JSON extra claims, decodes before
    its embedded expiry to that integer and that list.  The expiry and the
    extra claims are not returned. *)
Theorem jwt_decode_issued_token `{J : Jose} :
  forall (settings : Settings) (now utcnow : Z) (sub : string)
         (expires_delta : option Z) (kwargs : pydict) (st : redis)
         (n e : Z) (roles : list pyval),
    let expire := (access_expiry settings now expires_delta).1 in
    let claims := issued_claims expire sub kwargs in
    jose_supported (TOKEN_ALGORITHM settings) = true ->
    plain_claims claims ->
    claims !! "exp" = Some (PDatetime e) ->
    kwargs !! "sub" = None ->
    (String.length sub <= 4300)%nat ->
    int_of_str sub = Some n -> n <> 0 ->
    kwargs !! "role_ids" = Some (PList roles) -> roles <> [] ->
    utcnow <= timegm e ->
    exists token st',
      create_access_token settings now sub expires_delta kwargs st =
        (Ok (token, expire), st') /\
      jwt_decode settings utcnow token = Ok (n, roles).
Proof.
  intros settings now utcnow sub expires_delta kwargs st n e roles expire claims
    Hsup Hplain Hexp Hnosub _ Hint Hn Hroles Hne Hnow.
  destruct (jose_contract claims (TOKEN_SECRET_KEY settings)
              (TOKEN_ALGORITHM settings) e Hsup Hplain Hexp)
    as (token & Henc & Hdec).
  exists token. rewrite create_access_token_run.
  subst expire claims.
  destruct (access_expiry settings now expires_delta) as [expire ttl].
  cbn [fst] in *. rewrite Henc. eexists. split; [reflexivity | ].
  rewrite jwt_decode_unfold, Hdec.
  destruct (Z.leb_spec utcnow (timegm e)) as [_ | Hlt]; [ | lia].
  unfold dict_get.
  rewrite (lookup_insert_ne _ "exp" "sub") by discriminate.
  rewrite (lookup_insert_ne _ "exp" "role_ids") by discriminate.
  rewrite (issued_claims_sub _ _ _ Hnosub).
  rewrite (issued_claims_kwarg _ _ _ "role_ids" _ ltac:(discriminate) Hroles).
  cbn. rewrite Hint.
  destruct (Z.eqb_spec n 0) as [ | _]; [contradiction | ].
  destruct roles; [contradiction | reflexivity].
Qed.

(** The subject [" +4_2"], which [int()] reads as 42. *)
Lemma jwt_decode_issued_token_witness :
  exists token st',
    create_access_token (J := Reference.jose) example_settings 0 " +4_2" None
      roles_1_2 ∅ = (Ok (token, 86400000000), st') /\
    jwt_decode (J := Reference.jose) example_settings 10 token =
      Ok (42, [PInt 1; PInt 2]).
Proof.
  apply (jwt_decode_issued_token (J := Reference.jose) example_settings 0 10
           " +4_2" None roles_1_2 ∅ 42 86400000000 [PInt 1; PInt 2]).
  - reflexivity.
  - apply (bool_decide_unpack _). vm_compute. exact I.
  - vm_compute. reflexivity.
  - reflexivity.
  - vm_compute. lia.
  - vm_compute. reflexivity.
  - discriminate.
  - reflexivity.
  - discriminate.
  - vm_compute. discriminate.
Defined.

(** C1 as stated fails, in each respect the statement above differs from
    it.  All tokens are issued at time 0 with the default lifetime of one
    day and decoded ten seconds later.
    - The subject ["42"] is valid, but the user has no role: [jwt_decode]
      raises instead of returning.
    - What [jwt_decode] returns is the pair of the subject id and the role
      ids, not the claims: two tokens whose claims differ in [dept] decode
      to the same result.
    - The subject ["0"] reads as an integer, and [jwt_decode] raises.
    - An extra claim [aud] is encoded, and the library refuses the token
      at decoding, since the module passes no audience. *)
Lemma jwt_decode_not_the_claims :
  let issue sub kwargs :=
    (create_access_token (J := Reference.jose) example_settings 0 sub None
       kwargs ∅).1 in
  let token sub kwargs :=
    example_token (issued_claims 86400000000 sub kwargs) in
  let decode t := jwt_decode (J := Reference.jose) example_settings 10 t in
  let no_roles : pydict := {["role_ids" := PList []]} in
  let with_dept : pydict := <["dept" := PStr "ops"]> roles_1_2 in
  let with_aud : pydict := <["aud" := PStr "api"]> roles_1_2 in
  10 <= timegm 86400000000 /\
  (issue "42" no_roles = Ok (token "42" no_roles, 86400000000) /\
   int_of_str "42" = Some 42 /\
   decode (token "42" no_roles) = Raise (TokenError None)) /\
  (issue "42" roles_1_2 = Ok (token "42" roles_1_2, 86400000000) /\
   issue "42" with_dept = Ok (token "42" with_dept, 86400000000) /\
   issued_claims 86400000000 "42" roles_1_2 !! "dept" = None /\
   issued_claims 86400000000 "42" with_dept !! "dept" = Some (PStr "ops") /\
   decode (token "42" roles_1_2) = Ok (42, [PInt 1; PInt 2]) /\
   decode (token "42" with_dept) = Ok (42, [PInt 1; PInt 2])) /\
  (issue "0" roles_1_2 = Ok (token "0" roles_1_2, 86400000000) /\
   int_of_str "0" = Some 0 /\
   decode (token "0" roles_1_2) = Raise (TokenError None)) /\
  (issue "42" with_aud = Ok (token "42" with_aud, 86400000000) /\
   decode (token "42" with_aud) = Raise (TokenError None)).
Proof.
  intros issue token decode no_roles with_dept with_aud.
  subst issue. cbv beta.
  rewrite !create_access_token_run.
  split; [vm_compute; discriminate | ].
  repeat split; vm_compute; reflexivity.
Qed.

(** ** Keys and prefixes *)

Lemma app_assoc_str (a b c : string) : (a +:+ b) +:+ c = a +:+ b +:+ c.
Proof.
  induction a as [ | x a IH]; [reflexivity | ].
  rewrite !app_cons. f_equal. exact IH.
Qed.

Lemma startswith_app (p s : string) : startswith p (p +:+ s) = true.
Proof.
  induction p as [ | c p IH]; [reflexivity | ].
  rewrite app_cons. cbn [startswith]. rewrite Ascii.eqb_refl. exact IH.
Qed.

Lemma token_key_prefix (prefix sub token : string) :
  token_key prefix sub token = subject_prefix prefix sub +:+ token.
Proof.
  unfold token_key, subject_prefix. rewrite !app_assoc_str. reflexivity.
Qed.

Lemma token_key_startswith (prefix sub token : string) :
  startswith (subject_prefix prefix sub) (token_key prefix sub token) = true.
Proof. rewrite token_key_prefix. apply startswith_app. Qed.

Lemma token_key_inj (prefix sub t t' : string) :
  token_key prefix sub t = token_key prefix sub t' -> t = t'.
Proof.
  rewrite !token_key_prefix. apply (inj (String.app _)).
Qed.

(** The store after an issuing call, key by key. *)
Lemma issued_store_lookup (multi_login : pyval) (p k : string)
    (v : string * Z) (st : redis) (i : string) :
  <[k := v]> (after_delete multi_login p st) !! i =
    if decide (k = i) then Some v
    else if is_False multi_login && startswith p i then None
    else st !! i.
Proof.
  rewrite lookup_insert. destruct (decide (k = i)) as [ | Hne]; [reflexivity | ].
  unfold after_delete. destruct (is_False multi_login); [ | reflexivity].
  cbn [andb]. rewrite map_lookup_filter. cbn [fst].
  destruct (st !! i) as [x | ]; cbn; [ | destruct (startswith p i); reflexivity].
  destruct (startswith p i); [rewrite option_guard_False | rewrite option_guard_True];
    try reflexivity; try discriminate.
Qed.

Lemma session_set_after_delete (prefix sub token : string) (ttl : Z)
    (st : redis) :
  session_set prefix sub
    (<[token_key prefix sub token := (token, ttl)]>
       (after_delete (PBool false) (subject_prefix prefix sub) st)) =
  {[token_key prefix sub token := (token, ttl)]}.
Proof.
  apply map_eq. intros i. unfold session_set.
  rewrite map_lookup_filter, issued_store_lookup. cbn [fst is_False andb].
  destruct (decide (token_key prefix sub token = i)) as [<- | Hne].
  - rewrite lookup_singleton_eq. cbn.
    rewrite option_guard_True by apply token_key_startswith. reflexivity.
  - rewrite lookup_singleton_ne by exact Hne.
    destruct (st !! i) as [x | ]; cbn.
    + case_guard as E; cbn; [rewrite E; reflexivity | ].
      destruct (startswith (subject_prefix prefix sub) i); reflexivity.
    + case_match; reflexivity.
Qed.

(** ** Single-session issuance *)

(** C4. Two access tokens issued one after the other for the same subject,
    both with [multi_login=False]: the subject's session set then holds the
    entry of the second call and nothing else, because each call deletes the
    prefix before it writes its entry. *)
Theorem single_session_twice `{J : Jose} :
  forall (settings : Settings) (now1 now2 : Z) (sub : string)
         (d1 d2 : option Z) (kw1 kw2 : pydict) (st : redis)
         (token1 token2 : string),
    let x1 := access_expiry settings now1 d1 in
    let x2 := access_expiry settings now2 d2 in
    kw1 !! "multi_login" = Some (PBool false) ->
    kw2 !! "multi_login" = Some (PBool false) ->
    jose_encode (issued_claims x1.1 sub kw1)
      (TOKEN_SECRET_KEY settings) (TOKEN_ALGORITHM settings) = Ok token1 ->
    jose_encode (issued_claims x2.1 sub kw2)
      (TOKEN_SECRET_KEY settings) (TOKEN_ALGORITHM settings) = Ok token2 ->
    exists st1 st2,
      create_access_token settings now1 sub d1 kw1 st =
        (Ok (token1, x1.1), st1) /\
      create_access_token settings now2 sub d2 kw2 st1 =
        (Ok (token2, x2.1), st2) /\
      st2 = <[token_key (TOKEN_REDIS_PREFIX settings) sub token2
                := (token2, x2.2)]>
              (filter (fun kv =>
                 startswith (subject_prefix (TOKEN_REDIS_PREFIX settings) sub)
                   kv.1 = false) st1) /\
      session_set (TOKEN_REDIS_PREFIX settings) sub st2 =
        {[token_key (TOKEN_REDIS_PREFIX settings) sub token2
            := (token2, x2.2)]}.
Proof.
  intros settings now1 now2 sub d1 d2 kw1 kw2 st token1 token2 x1 x2
    Hm1 Hm2 He1 He2.
  subst x1 x2.
  destruct (access_expiry settings now1 d1) as [e1 ttl1] eqn:X1.
  destruct (access_expiry settings now2 d2) as [e2 ttl2] eqn:X2.
  cbn [fst snd] in *.
  set (p := subject_prefix (TOKEN_REDIS_PREFIX settings) sub).
  set (st1 := <[token_key (TOKEN_REDIS_PREFIX settings) sub token1
                  := (token1, ttl1)]> (after_delete (PBool false) p st)).
  exists st1.
  exists (<[token_key (TOKEN_REDIS_PREFIX settings) sub token2
              := (token2, ttl2)]> (after_delete (PBool false) p st1)).
  rewrite !create_access_token_run, X1, X2, He1, He2.
  unfold dict_get. rewrite Hm1, Hm2. cbn [default from_option id].
  split; [reflexivity | ]. split; [reflexivity | ]. split; [reflexivity | ].
  apply session_set_after_delete.
Qed.

Lemma single_session_twice_witness :
  let token2 := example_token (issued_claims 86405000000 "42" single_session) in
  exists st1 st2,
    create_access_token (J := Reference.jose) example_settings 0 "42" None
      single_session ∅ =
      (Ok (example_token (issued_claims 86400000000 "42" single_session),
           86400000000), st1) /\
    create_access_token (J := Reference.jose) example_settings 5000000 "42"
      None single_session st1 = (Ok (token2, 86405000000), st2) /\
    session_set "fba_token" "42" st2 =
      {[token_key "fba_token" "42" token2 := (token2, 86400)]}.
Proof.
  intros token2.
  destruct (single_session_twice (J := Reference.jose) example_settings
              0 5000000 "42" None None single_session single_session ∅
              (example_token (issued_claims 86400000000 "42" single_session))
              token2)
    as (st1 & st2 & H1 & H2 & _ & H3).
  - reflexivity.
  - reflexivity.
  - vm_compute. reflexivity.
  - vm_compute. reflexivity.
  - exists st1, st2. split; [exact H1 | ]. split; [exact H2 | exact H3].
Defined.

(** ** The prefix delete and the [multi_login] keyword *)

(** C8. In [create_access_token] and in [create_refresh_token] the prefix
    delete happens exactly when [multi_login] is [False].  Key by key, the
    store after the call is the store before it, except for the new entry,
    and except for the subject's prior entries when [multi_login is False].
    In particular with [multi_login=True] or without the keyword every other
    entry is as it was. *)
Theorem prefix_delete_iff_multi_login_false `{J : Jose} :
  forall (settings : Settings) (now : Z) (sub : string)
         (expires_delta expire_time : option Z) (kwargs : pydict) (st : redis)
         (token refresh_token : string),
    let xa := access_expiry settings now expires_delta in
    let xr := refresh_expiry settings now expire_time in
    let ka := token_key (TOKEN_REDIS_PREFIX settings) sub token in
    let kr := token_key (TOKEN_REFRESH_REDIS_PREFIX settings) sub refresh_token in
    let pa := subject_prefix (TOKEN_REDIS_PREFIX settings) sub in
    let pr := subject_prefix (TOKEN_REFRESH_REDIS_PREFIX settings) sub in
    let single := is_False (dict_get kwargs "multi_login") in
    jose_encode (issued_claims xa.1 sub kwargs)
      (TOKEN_SECRET_KEY settings) (TOKEN_ALGORITHM settings) = Ok token ->
    jose_encode (issued_claims xr.1 sub kwargs)
      (TOKEN_SECRET_KEY settings) (TOKEN_ALGORITHM settings) = Ok refresh_token ->
    exists sa sr,
      create_access_token settings now sub expires_delta kwargs st =
        (Ok (token, xa.1), sa) /\
      create_refresh_token settings now sub expire_time kwargs st =
        (Ok (refresh_token, xr.1), sr) /\
      sa !! ka = Some (token, xa.2) /\
      sr !! kr = Some (refresh_token, xr.2) /\
      (forall k, k <> ka ->
         sa !! k = if single && startswith pa k then None else st !! k) /\
      (forall k, k <> kr ->
         sr !! k = if single && startswith pr k then None else st !! k) /\
      (kwargs !! "multi_login" = None \/
       kwargs !! "multi_login" = Some (PBool true) ->
       single = false /\ sa = <[ka := (token, xa.2)]> st /\
       sr = <[kr := (refresh_token, xr.2)]> st).
Proof.
  intros settings now sub expires_delta expire_time kwargs st token
    refresh_token xa xr ka kr pa pr single Ha Hr.
  subst xa xr.
  destruct (access_expiry settings now expires_delta) as [ea ttla] eqn:Xa.
  destruct (refresh_expiry settings now expire_time) as [er ttlr] eqn:Xr.
  cbn [fst snd] in *.
  exists (<[ka := (token, ttla)]>
            (after_delete (dict_get kwargs "multi_login") pa st)).
  exists (<[kr := (refresh_token, ttlr)]>
            (after_delete (dict_get kwargs "multi_login") pr st)).
  rewrite create_access_token_run, create_refresh_token_run, Xa, Xr, Ha, Hr.
  split; [reflexivity | ]. split; [reflexivity | ].
  split; [apply lookup_insert_eq | ]. split; [apply lookup_insert_eq | ].
  split; [ | split].
  - intros k Hk. rewrite issued_store_lookup, decide_False by congruence.
    reflexivity.
  - intros k Hk. rewrite issued_store_lookup, decide_False by congruence.
    reflexivity.
  - intros Hm. subst single. unfold after_delete, dict_get.
    destruct Hm as [-> | ->]; cbn; repeat split; reflexivity.
Qed.

Lemma prefix_delete_iff_multi_login_false_witness :
  (create_access_token (J := Reference.jose) example_settings 0 "42" None
     roles_1_2 one_session).2 !! "fba_token:42:old" = Some ("old", 60) /\
  (create_access_token (J := Reference.jose) example_settings 0 "42" None
     single_session one_session).2 !! "fba_token:42:old" = None.
Proof.
  split.
  - destruct (prefix_delete_iff_multi_login_false (J := Reference.jose)
                example_settings 0 "42" None None roles_1_2 one_session
                (example_token (issued_claims 86400000000 "42" roles_1_2))
                (example_token (issued_claims 604800000000 "42" roles_1_2)))
      as (sa & sr & H1 & _ & _ & _ & H2 & _).
    + vm_compute. reflexivity.
    + vm_compute. reflexivity.
    + rewrite H1. cbn [snd]. rewrite H2; [reflexivity | ].
      vm_compute. discriminate.
  - destruct (prefix_delete_iff_multi_login_false (J := Reference.jose)
                example_settings 0 "42" None None single_session one_session
                (example_token (issued_claims 86400000000 "42" single_session))
                (example_token (issued_claims 604800000000 "42" single_session)))
      as (sa & sr & H1 & _ & _ & _ & H2 & _).
    + vm_compute. reflexivity.
    + vm_compute. reflexivity.
    + rewrite H1. cbn [snd]. rewrite H2; [reflexivity | ].
      vm_compute. discriminate.
Defined.

(** ** Renewal from a refresh token *)

Lemma colon_free_app_colon (p t : string) :
  colon_free (p +:+ ":" +:+ t) = false.
Proof.
  induction p as [ | c p IH]; [reflexivity | ].
  rewrite app_cons. cbn [colon_free]. rewrite IH. apply andb_false_r.
Qed.

Lemma last_segment_app (p t : string) :
  colon_free t = true -> last_segment (p +:+ ":" +:+ t) = t.
Proof.
  intros Ht. induction p as [ | c p IH].
  - change ("" +:+ ":" +:+ t) with (String ":" t).
    cbn [last_segment]. rewrite Ht. reflexivity.
  - rewrite app_cons. cbn [last_segment].
    rewrite colon_free_app_colon. exact IH.
Qed.

Lemma last_segment_token_key (prefix sub token : string) :
  colon_free token = true ->
  last_segment (token_key prefix sub token) = token.
Proof.
  intros Ht. unfold token_key.
  rewrite <- (app_assoc_str prefix ":" (sub +:+ ":" +:+ token)).
  rewrite <- (app_assoc_str (prefix +:+ ":") sub (":" +:+ token)).
  apply last_segment_app, Ht.
Qed.

Section Renewal.

Context {J : Jose}.
Variable settings : Settings.

Lemma create_new_token_run now sub refresh_token kwargs st :
  create_new_token settings now sub refresh_token kwargs st =
    match st !! token_key (TOKEN_REFRESH_REDIS_PREFIX settings) sub refresh_token with
    | Some (v, _) =>
        if negb (String.eqb v "") && String.eqb v refresh_token
        then call_create_access_token settings now sub kwargs st
        else (Raise refresh_expired, st)
    | None => (Raise refresh_expired, st)
    end.
Proof.
  unfold create_new_token, mbind, M_bind, redis_get.
  destruct (st !! token_key _ sub refresh_token) as [[v ttl] | ];
    cbn [fmap option_fmap option_map fst truthy_opt_str]; [ | reflexivity].
  destruct (String.eqb_spec v refresh_token) as [-> | Hne].
  - rewrite bool_decide_eq_true_2 by reflexivity.
    destruct refresh_token as [ | c r]; cbn; [reflexivity | ].
    destruct (call_create_access_token _ _ _ _ _) as [[[tok e] | e] st'];
      reflexivity.
  - rewrite bool_decide_eq_false_2 by congruence.
    rewrite andb_false_r, orb_true_r. reflexivity.
Qed.

(** What the renewal does not raise: the error of the application. *)
Lemma call_create_access_token_no_token_error now sub kwargs st :
  ~ is_token_error (call_create_access_token settings now sub kwargs st).1.
Proof.
  assert (forall d kw, ~ is_token_error
            (create_access_token settings now sub d kw st).1) as Hc.
  { intros d kw. rewrite create_access_token_run.
    destruct (access_expiry settings now d) as [e ttl].
    destruct (jose_encode _ _ _) as [tok | err] eqn:E; cbn; [tauto | ].
    apply jose_encode_raises in E. destruct err; try tauto; discriminate E. }
  unfold call_create_access_token.
  destruct (kwargs !! "expires_delta") as [v | ]; [ | apply Hc].
  destruct v; try apply Hc;
    match goal with |- context [py_truthy ?v] => destruct (py_truthy v) end;
    try apply Hc; cbn; tauto.
Qed.

End Renewal.

(** Two keys with colon-free prefixes agree on the prefix and on the rest. *)
Lemma colon_split_heads (a b x y : string) :
  colon_free a = true -> colon_free b = true ->
  a +:+ ":" +:+ x = b +:+ ":" +:+ y -> a = b /\ x = y.
Proof.
  revert b. induction a as [ | c a IH]; intros [ | c' b] Ha Hb H.
  - change (String ":" x = String ":" y) in H.
    injection H as ->. split; reflexivity.
  - exfalso. change (String ":" x = String c' (b +:+ ":" +:+ y)) in H.
    injection H as <- _. cbn [colon_free] in Hb. discriminate Hb.
  - exfalso. change (String c (a +:+ ":" +:+ x) = String ":" y) in H.
    injection H as -> _. cbn [colon_free] in Ha. discriminate Ha.
  - change (String c (a +:+ ":" +:+ x) = String c' (b +:+ ":" +:+ y)) in H.
    injection H as -> H. cbn [colon_free] in Ha, Hb.
    apply andb_true_iff in Ha as [_ Ha], Hb as [_ Hb].
    destruct (IH b Ha Hb H) as [-> ->]. split; reflexivity.
Qed.

(** A colon-free subject followed by a colon-free token is read back in one
    way only, whatever the other reading takes as its subject. *)
Lemma colon_split_tail (a b x y : string) :
  colon_free a = true -> colon_free x = true ->
  a +:+ ":" +:+ x = b +:+ ":" +:+ y -> a = b /\ x = y.
Proof.
  revert b. induction a as [ | c a IH]; intros [ | c' b] Ha Hx H.
  - change (String ":" x = String ":" y) in H.
    injection H as ->. split; reflexivity.
  - exfalso. change (String ":" x = String c' (b +:+ ":" +:+ y)) in H.
    injection H as <- ->.
    rewrite colon_free_app_colon in Hx. discriminate Hx.
  - exfalso. change (String c (a +:+ ":" +:+ x) = String ":" y) in H.
    injection H as -> _. cbn [colon_free] in Ha. discriminate Ha.
  - change (String c (a +:+ ":" +:+ x) = String c' (b +:+ ":" +:+ y)) in H.
    injection H as -> H.
    cbn [colon_free] in Ha. apply andb_true_iff in Ha as [_ Ha].
    destruct (IH b Ha Hx H) as [-> ->]. split; reflexivity.
Qed.

Lemma token_key_segments (p q s t v u : string) :
  colon_free p = true -> colon_free q = true ->
  colon_free s = true -> colon_free v = true ->
  token_key p s v = token_key q t u -> p = q /\ s = t /\ v = u.
Proof.
  intros Hp Hq Hs Hv H. unfold token_key in H.
  destruct (colon_split_heads _ _ _ _ Hp Hq H) as [-> H'].
  destruct (colon_split_tail _ _ _ _ Hs Hv H') as [-> ->].
  repeat split.
Qed.

Section ModuleStore.

Context {J : Jose}.
Variable settings : Settings.

Lemma issued_store_entries (prefix sub token : string) (ttl : Z)
    (multi_login : pyval) (st : redis) :
  prefix = TOKEN_REDIS_PREFIX settings \/
    prefix = TOKEN_REFRESH_REDIS_PREFIX settings ->
  colon_free sub = true ->
  token <> "" /\ colon_free token = true ->
  module_entries settings st ->
  module_entries settings (<[token_key prefix sub token := (token, ttl)]>
             (after_delete multi_login (subject_prefix prefix sub) st)).
Proof.
  intros Hp Hs [Hne Hc] Hst key value ttl' H.
  rewrite issued_store_lookup in H.
  destruct (decide (token_key prefix sub token = key)) as [<- | _].
  - injection H as <- <-. split; [exact Hne | split; [exact Hc | ]].
    exists prefix, sub. repeat split; assumption.
  - destruct (is_False multi_login && startswith _ key); [discriminate H | ].
    exact (Hst _ _ _ H).
Qed.

Lemma create_access_token_entries now sub expires_delta kwargs st :
  colon_free sub = true -> module_entries settings st ->
  module_entries settings (create_access_token settings now sub expires_delta kwargs st).2.
Proof.
  intros Hs Hst. rewrite create_access_token_run.
  destruct (access_expiry settings now expires_delta) as [e ttl].
  destruct (jose_encode _ _ _) as [token | err] eqn:E; [ | exact Hst].
  apply issued_store_entries; auto. exact (jose_token_shape _ _ _ _ E).
Qed.

Lemma create_refresh_token_entries now sub expire_time kwargs st :
  colon_free sub = true -> module_entries settings st ->
  module_entries settings (create_refresh_token settings now sub expire_time kwargs st).2.
Proof.
  intros Hs Hst. rewrite create_refresh_token_run.
  destruct (refresh_expiry settings now expire_time) as [e ttl].
  destruct (jose_encode _ _ _) as [token | err] eqn:E; [ | exact Hst].
  apply issued_store_entries; auto. exact (jose_token_shape _ _ _ _ E).
Qed.

Lemma create_new_token_entries now sub refresh_token kwargs st :
  colon_free sub = true -> module_entries settings st ->
  module_entries settings (create_new_token settings now sub refresh_token kwargs st).2.
Proof.
  intros Hs Hst. rewrite create_new_token_run.
  destruct (st !! token_key _ sub refresh_token) as [[v ttl] | ];
    [ | exact Hst].
  destruct (negb (String.eqb v "") && String.eqb v refresh_token);
    [ | exact Hst].
  unfold call_create_access_token.
  destruct (kwargs !! "expires_delta") as [v' | ];
    [ | apply create_access_token_entries; assumption].
  destruct v'; try (apply create_access_token_entries; assumption);
    match goal with |- context [py_truthy ?v] => destruct (py_truthy v) end;
    try (apply create_access_token_entries; assumption); exact Hst.
Qed.

(** Every entry of a store of the module is as an issuing call writes it. *)
Lemma module_store_entries (st : redis) :
  module_store settings st -> module_entries settings st.
Proof.
  induction 1 as [ | now sub d kwargs st Hs _ IH | now sub t kwargs st Hs _ IH
                   | now sub r kwargs st Hs _ IH | st st' _ IH Hsub].
  - intros key value ttl H. rewrite lookup_empty in H. discriminate H.
  - apply create_access_token_entries; assumption.
  - apply create_refresh_token_entries; assumption.
  - apply create_new_token_entries; assumption.
  - intros key value ttl H. destruct (Hsub _ _ _ H) as [ttl0 H0].
    exact (IH _ _ _ H0).
Qed.

End ModuleStore.

(** C9. The entry an issuing call writes holds the token itself, under a
    key whose last segment is that token, and a [get] of that key returns
    the token.  In a store the module has built for subjects without a
    colon, the two prefixes being colon-free, every entry has that form, so
    an entry found at the key of a prefix, any subject and any token holds
    that very token: [create_new_token] never takes the mismatch branch
    there, its check refuses an absent entry only. *)
Theorem issued_entry_holds_token `{J : Jose} :
  forall settings : Settings,
    (forall now sub expires_delta kwargs st token,
       let x := access_expiry settings now expires_delta in
       let key := token_key (TOKEN_REDIS_PREFIX settings) sub token in
       let st' :=
         (create_access_token settings now sub expires_delta kwargs st).2 in
       jose_encode (issued_claims x.1 sub kwargs)
         (TOKEN_SECRET_KEY settings) (TOKEN_ALGORITHM settings) = Ok token ->
       st' !! key = Some (token, x.2) /\
       last_segment key = token /\
       redis_get key st' = (Ok (Some token), st')) /\
    (forall now sub expire_time kwargs st token,
       let x := refresh_expiry settings now expire_time in
       let key := token_key (TOKEN_REFRESH_REDIS_PREFIX settings) sub token in
       let st' :=
         (create_refresh_token settings now sub expire_time kwargs st).2 in
       jose_encode (issued_claims x.1 sub kwargs)
         (TOKEN_SECRET_KEY settings) (TOKEN_ALGORITHM settings) = Ok token ->
       st' !! key = Some (token, x.2) /\
       last_segment key = token /\
       redis_get key st' = (Ok (Some token), st') /\
       forall now' kwargs' st'',
         st'' !! key = st' !! key ->
         create_new_token settings now' sub token kwargs' st'' =
           call_create_access_token settings now' sub kwargs' st'') /\
    (colon_free (TOKEN_REDIS_PREFIX settings) = true ->
     colon_free (TOKEN_REFRESH_REDIS_PREFIX settings) = true ->
     forall st : redis,
       module_store settings st ->
       (forall key value ttl,
          st !! key = Some (value, ttl) ->
          value <> "" /\ last_segment key = value) /\
       (forall prefix sub token value ttl,
          prefix = TOKEN_REDIS_PREFIX settings \/
            prefix = TOKEN_REFRESH_REDIS_PREFIX settings ->
          st !! token_key prefix sub token = Some (value, ttl) ->
          value = token /\
          redis_get (token_key prefix sub token) st = (Ok (Some token), st)) /\
       (forall now sub refresh_token kwargs,
          create_new_token settings now sub refresh_token kwargs st =
            match
              st !! token_key (TOKEN_REFRESH_REDIS_PREFIX settings) sub
                      refresh_token
            with
            | Some _ => call_create_access_token settings now sub kwargs st
            | None => (Raise refresh_expired, st)
            end)).
Proof.
  intros settings. split; [ | split].
  - intros now sub expires_delta kwargs st token x key st' E.
    destruct (jose_token_shape _ _ _ _ E) as [_ Hc].
    assert (st' !! key = Some (token, x.2)) as Hst.
    { subst st'. rewrite create_access_token_run. fold x.
      destruct x as [e ttl]. cbn [fst snd] in *. rewrite E.
      apply lookup_insert_eq. }
    split; [exact Hst | ].
    split; [apply last_segment_token_key, Hc | ].
    unfold redis_get. rewrite Hst. reflexivity.
  - intros now sub expire_time kwargs st token x key st' E.
    destruct (jose_token_shape _ _ _ _ E) as [Hne Hc].
    assert (st' !! key = Some (token, x.2)) as Hst.
    { subst st'. rewrite create_refresh_token_run. fold x.
      destruct x as [e ttl]. cbn [fst snd] in *. rewrite E.
      apply lookup_insert_eq. }
    split; [exact Hst | ].
    split; [apply last_segment_token_key, Hc | ].
    split; [unfold redis_get; rewrite Hst; reflexivity | ].
    intros now' kwargs' st'' Heq.
    rewrite create_new_token_run. fold key. rewrite Heq, Hst.
    rewrite String.eqb_refl. apply String.eqb_neq in Hne. rewrite Hne.
    reflexivity.
  - intros Ha Hr st Hst.
    pose proof (module_store_entries settings st Hst) as Hentries.
    assert (forall prefix sub token value ttl,
              prefix = TOKEN_REDIS_PREFIX settings \/
                prefix = TOKEN_REFRESH_REDIS_PREFIX settings ->
              st !! token_key prefix sub token = Some (value, ttl) ->
              value <> "" /\ value = token) as Hval.
    { intros prefix sub token value ttl Hp H.
      destruct (Hentries _ _ _ H) as (Hne & Hc & p & s & Hp' & Hs & Hk).
      split; [exact Hne | ].
      assert (colon_free p = true) as Hcp by (destruct Hp' as [-> | ->]; assumption).
      assert (colon_free prefix = true) as Hcq
        by (destruct Hp as [-> | ->]; assumption).
      symmetry in Hk.
      destruct (token_key_segments _ _ _ _ _ _ Hcp Hcq Hs Hc Hk) as (_ & _ & Hv).
      exact Hv. }
    split; [ | split].
    + intros key value ttl H.
      destruct (Hentries _ _ _ H) as (Hne & Hc & p & s & _ & _ & ->).
      split; [exact Hne | apply last_segment_token_key, Hc].
    + intros prefix sub token value ttl Hp H.
      destruct (Hval _ _ _ _ _ Hp H) as [_ ->].
      split; [reflexivity | ].
      unfold redis_get. rewrite H. reflexivity.
    + intros now sub refresh_token kwargs. rewrite create_new_token_run.
      destruct (st !! token_key _ sub refresh_token) as [[v ttl] | ] eqn:H;
        [ | reflexivity].
      destruct (Hval _ _ _ _ _ (or_intror eq_refl) H) as [Hne ->].
      rewrite String.eqb_refl. apply String.eqb_neq in Hne. rewrite Hne.
      reflexivity.
Qed.

(** A refresh token issued for subject 7 into the empty store: the store is
    one of the module, and the renewal that presents the token goes on to
    issue. *)
Lemma issued_entry_holds_token_witness :
  let token := example_token (issued_claims 604800000000 "7" roles_1_2) in
  let st := (create_refresh_token (J := Reference.jose) example_settings 0 "7"
               None roles_1_2 ∅).2 in
  module_store (J := Reference.jose) example_settings st /\
  st !! token_key "fba_refresh_token" "7" token = Some (token, 604800) /\
  create_new_token (J := Reference.jose) example_settings 5000000 "7" token
    roles_1_2 st =
  call_create_access_token (J := Reference.jose) example_settings 5000000 "7"
    roles_1_2 st.
Proof.
  intros token st.
  assert (module_store (J := Reference.jose) example_settings st) as Hst.
  { apply ms_refresh; [reflexivity | apply ms_empty]. }
  assert (st !! token_key "fba_refresh_token" "7" token = Some (token, 604800))
    as Hk.
  { subst st. rewrite create_refresh_token_run. apply lookup_insert_eq. }
  split; [exact Hst | split; [exact Hk | ]].
  destruct (issued_entry_holds_token (J := Reference.jose) example_settings)
    as (_ & _ & Hinv).
  destruct (Hinv eq_refl eq_refl st Hst) as (_ & _ & Hnew).
  rewrite Hnew.
  change (TOKEN_REFRESH_REDIS_PREFIX example_settings) with "fba_refresh_token".
  rewrite Hk. reflexivity.
Defined.

(** C9 as stated fails for a subject with a colon.  The refresh entry
    written for subject [7:a] and token [T] lies at the key of subject [7]
    and token [a:T]: the [get] of that key succeeds and returns [T], which is
    not the token of the key, and [create_new_token] called with subject [7]
    and token [a:T] takes the mismatch branch.  It fails for a prefix with a
    colon as well: under the prefixes [fba:token] and [fba] the access entry
    of subject [7] and token [U] lies at the refresh key of subject [token]
    and token [7:U]. *)
Lemma issued_entry_other_token :
  let T := example_token (issued_claims 604800000000 "7:a" roles_1_2) in
  let st := (create_refresh_token (J := Reference.jose) example_settings 0
               "7:a" None roles_1_2 ∅).2 in
  let key := token_key "fba_refresh_token" "7" ("a:" +:+ T) in
  let U := example_token (issued_claims 86400000000 "7" roles_1_2) in
  let st' := (create_access_token (J := Reference.jose) nested_settings 0
                "7" None roles_1_2 ∅).2 in
  let key' := token_key "fba" "token" ("7:" +:+ U) in
  (st = {[token_key "fba_refresh_token" "7:a" T := (T, 604800)]} /\
   redis_get key st = (Ok (Some T), st) /\
   T <> "a:" +:+ T /\
   create_new_token (J := Reference.jose) example_settings 0 "7" ("a:" +:+ T)
     roles_1_2 st = (Raise refresh_expired, st)) /\
  (st' = {[token_key "fba:token" "7" U := (U, 86400)]} /\
   redis_get key' st' = (Ok (Some U), st') /\
   U <> "7:" +:+ U /\
   create_new_token (J := Reference.jose) nested_settings 0 "token"
     ("7:" +:+ U) roles_1_2 st' = (Raise refresh_expired, st')).
Proof.
  intros T st key U st' key'. split.
  - assert (key = token_key "fba_refresh_token" "7:a" T) as Hkey
      by reflexivity.
    assert (st = {[token_key "fba_refresh_token" "7:a" T := (T, 604800)]})
      as Hst.
    { subst st. rewrite create_refresh_token_run. reflexivity. }
    assert (T <> "a:" +:+ T) as Hne.
    { intros H. vm_compute in H. discriminate H. }
    split; [exact Hst | ].
    split; [ | split; [exact Hne | ]].
    + unfold redis_get. rewrite Hkey, Hst, lookup_singleton_eq. reflexivity.
    + rewrite create_new_token_run.
      change (token_key (TOKEN_REFRESH_REDIS_PREFIX example_settings) "7"
                ("a:" +:+ T)) with key.
      rewrite Hkey, Hst, lookup_singleton_eq.
      apply String.eqb_neq in Hne. rewrite Hne, andb_false_r. reflexivity.
  - assert (key' = token_key "fba:token" "7" U) as Hkey by reflexivity.
    assert (st' = {[token_key "fba:token" "7" U := (U, 86400)]}) as Hst.
    { subst st'. rewrite create_access_token_run. reflexivity. }
    assert (U <> "7:" +:+ U) as Hne.
    { intros H. vm_compute in H. discriminate H. }
    split; [exact Hst | ].
    split; [ | split; [exact Hne | ]].
    + unfold redis_get. rewrite Hkey, Hst, lookup_singleton_eq. reflexivity.
    + rewrite create_new_token_run.
      change (token_key (TOKEN_REFRESH_REDIS_PREFIX nested_settings) "token"
                ("7:" +:+ U)) with key'.
      rewrite Hkey, Hst, lookup_singleton_eq.
      apply String.eqb_neq in Hne. rewrite Hne, andb_false_r. reflexivity.
Qed.

Lemma startswith_colon_free (a b x y : string) :
  colon_free a = true -> colon_free b = true ->
  startswith (a +:+ ":" +:+ x) (b +:+ ":" +:+ y) = true -> a = b.
Proof.
  revert b. induction a as [ | c a IH]; intros [ | c' b] Ha Hb H.
  - reflexivity.
  - exfalso.
    change (Ascii.eqb ":" c' && startswith x (b +:+ ":" +:+ y) = true) in H.
    cbn [colon_free] in Hb. rewrite Ascii.eqb_sym in H.
    destruct (Ascii.eqb c' ":"); discriminate.
  - exfalso.
    change (Ascii.eqb c ":" && startswith (a +:+ ":" +:+ x) y = true) in H.
    cbn [colon_free] in Ha. destruct (Ascii.eqb c ":"); discriminate.
  - change (Ascii.eqb c c' &&
              startswith (a +:+ ":" +:+ x) (b +:+ ":" +:+ y) = true) in H.
    cbn [colon_free] in Ha, Hb.
    apply andb_true_iff in H as [Hc H], Ha as [_ Ha], Hb as [_ Hb].
    apply Ascii.eqb_eq in Hc as ->. f_equal. apply IH; assumption.
Qed.

Lemma refresh_key_not_under_access (settings : Settings) (sub sub' t : string) :
  namespace_partition settings ->
  startswith (subject_prefix (TOKEN_REDIS_PREFIX settings) sub)
    (token_key (TOKEN_REFRESH_REDIS_PREFIX settings) sub' t) = false.
Proof.
  intros (Ha & Hr & Hne). apply not_true_is_false. intros H.
  apply Hne. unfold subject_prefix, token_key in H.
  exact (startswith_colon_free _ _ _ _ Ha Hr H).
Qed.

Lemma refresh_key_not_access_key (settings : Settings) (sub sub' t t' : string) :
  namespace_partition settings ->
  token_key (TOKEN_REDIS_PREFIX settings) sub t <>
    token_key (TOKEN_REFRESH_REDIS_PREFIX settings) sub' t'.
Proof.
  intros Hp Heq.
  pose proof (refresh_key_not_under_access settings sub sub' t' Hp) as H.
  rewrite <- Heq, token_key_startswith in H. discriminate H.
Qed.

(** An issuing call for the access namespace leaves the refresh namespace
    as it is. *)
Lemma call_create_access_token_frame `{J : Jose} (settings : Settings)
    now sub kwargs st sub' t :
  namespace_partition settings ->
  (call_create_access_token settings now sub kwargs st).2
    !! token_key (TOKEN_REFRESH_REDIS_PREFIX settings) sub' t =
  st !! token_key (TOKEN_REFRESH_REDIS_PREFIX settings) sub' t.
Proof.
  intros Hp.
  assert (forall d kw,
            (create_access_token settings now sub d kw st).2
              !! token_key (TOKEN_REFRESH_REDIS_PREFIX settings) sub' t =
            st !! token_key (TOKEN_REFRESH_REDIS_PREFIX settings) sub' t) as Hc.
  { intros d kw. rewrite create_access_token_run.
    destruct (access_expiry settings now d) as [e ttl].
    destruct (jose_encode _ _ _) as [tok | err]; [ | reflexivity].
    cbn [snd]. rewrite issued_store_lookup.
    rewrite decide_False by (apply refresh_key_not_access_key, Hp).
    rewrite (refresh_key_not_under_access _ _ _ _ Hp), andb_false_r.
    reflexivity. }
  unfold call_create_access_token.
  destruct (kwargs !! "expires_delta") as [v | ]; [ | apply Hc].
  destruct v; try apply Hc;
    match goal with |- context [py_truthy ?v] => destruct (py_truthy v) end;
    try apply Hc; reflexivity.
Qed.

Lemma example_settings_partition : namespace_partition example_settings.
Proof. repeat split. discriminate. Qed.

(** C5, as the code has it.  [create_new_token] raises [TokenError] exactly
    when the refresh entry is absent, or its value is empty, or its value is
    not the presented token.  Otherwise it is the call
    [create_access_token(sub, **kwargs)]: a new access token over the extra
    claims handed through, and the entry of the refresh token is left as it
    was. *)
Theorem create_new_token_guard `{J : Jose} :
  forall (settings : Settings) (now : Z) (sub refresh_token : string)
         (kwargs : pydict) (st : redis),
    let entry :=
      st !! token_key (TOKEN_REFRESH_REDIS_PREFIX settings) sub refresh_token in
    let run := create_new_token settings now sub refresh_token kwargs st in
    let expire := (access_expiry settings now None).1 in
    (is_token_error run.1 <-> refused entry refresh_token) /\
    (refused entry refresh_token -> run = (Raise refresh_expired, st)) /\
    (~ refused entry refresh_token ->
       run = call_create_access_token settings now sub kwargs st) /\
    (~ refused entry refresh_token ->
     kwargs !! "expires_delta" = None ->
     forall token,
       jose_encode (issued_claims expire sub kwargs)
         (TOKEN_SECRET_KEY settings) (TOKEN_ALGORITHM settings) = Ok token ->
       run.1 = Ok (token, expire)) /\
    (namespace_partition settings ->
       run.2 !! token_key (TOKEN_REFRESH_REDIS_PREFIX settings) sub refresh_token
         = entry).
Proof.
  intros settings now sub refresh_token kwargs st entry run expire.
  assert (refused entry refresh_token -> run = (Raise refresh_expired, st))
    as Hrefused.
  { subst run. rewrite create_new_token_run. fold entry.
    destruct entry as [[v ttl] | ]; [ | reflexivity].
    intros [-> | Hne]; [reflexivity | ].
    apply String.eqb_neq in Hne. rewrite Hne, andb_false_r. reflexivity. }
  assert (~ refused entry refresh_token ->
          run = call_create_access_token settings now sub kwargs st) as Hpass.
  { subst run. rewrite create_new_token_run. fold entry.
    destruct entry as [[v ttl] | ]; cbn [refused]; [ | tauto].
    intros Hok. destruct (String.eqb_spec v refresh_token) as [ | Hne];
      [ | tauto].
    destruct (String.eqb_spec v "") as [ | _]; [tauto | reflexivity]. }
  assert (Decision (refused entry refresh_token)) as Hdec.
  { destruct entry as [[v ttl] | ]; cbn [refused]; apply _. }
  split; [ | split; [exact Hrefused | split; [exact Hpass | split]]].
  - split.
    + intros Herr. destruct Hdec as [Hr | Hr]; [exact Hr | ].
      rewrite (Hpass Hr) in Herr.
      destruct (call_create_access_token_no_token_error _ _ _ _ _ Herr).
    + intros Hr. rewrite (Hrefused Hr). exact I.
  - intros Hok Hnone token Henc. rewrite (Hpass Hok).
    unfold call_create_access_token. rewrite Hnone.
    rewrite create_access_token_run. fold expire.
    destruct (access_expiry settings now None) as [e ttl].
    subst expire. cbn [fst] in *. rewrite Henc. reflexivity.
  - intros Hp. destruct Hdec as [Hr | Hr].
    + rewrite (Hrefused Hr). reflexivity.
    + rewrite (Hpass Hr). apply call_create_access_token_frame, Hp.
Qed.

(** A refresh token issued for subject 7 is presented back: a new access
    token is issued and the refresh entry stays. *)
Lemma create_new_token_guard_witness :
  let refresh := example_token (issued_claims 604800000000 "7" roles_1_2) in
  let st := (create_refresh_token (J := Reference.jose) example_settings 0 "7"
               None roles_1_2 ∅).2 in
  let run := create_new_token (J := Reference.jose) example_settings 5000000
               "7" refresh roles_1_2 st in
  run.1 = Ok (example_token (issued_claims 86405000000 "7" roles_1_2),
              86405000000) /\
  run.2 !! token_key "fba_refresh_token" "7" refresh =
    st !! token_key "fba_refresh_token" "7" refresh.
Proof.
  intros refresh st run.
  destruct (create_new_token_guard (J := Reference.jose) example_settings
              5000000 "7" refresh roles_1_2 st)
    as (_ & _ & _ & Hnew & Hframe).
  split.
  - apply Hnew.
    + assert (st !! token_key "fba_refresh_token" "7" refresh =
              Some (refresh, 604800)) as Hst.
      { subst st. rewrite create_refresh_token_run. apply lookup_insert_eq. }
      intros Hr.
      change (refused (st !! token_key "fba_refresh_token" "7" refresh)
                refresh) in Hr.
      rewrite Hst in Hr. destruct Hr as [H | H]; [ | apply H; reflexivity].
      vm_compute in H. discriminate H.
    + reflexivity.
    + vm_compute. reflexivity.
  - apply Hframe, example_settings_partition.
Defined.

(** C5 as stated fails: the entry for the presented token is there and its
    value equals the presented token, both being the empty string, and
    [create_new_token] raises [TokenError]. *)
Lemma create_new_token_empty_value :
  let st : redis := {[token_key "fba_refresh_token" "7" "" := ("", 100)]} in
  st !! token_key "fba_refresh_token" "7" "" = Some ("", 100) /\
  create_new_token (J := Reference.jose) example_settings 0 "7" "" roles_1_2 st
    = (Raise refresh_expired, st).
Proof.
  intros st. split; [apply lookup_singleton_eq | ].
  rewrite create_new_token_run.
  change (TOKEN_REFRESH_REDIS_PREFIX example_settings) with "fba_refresh_token".
  subst st. rewrite lookup_singleton_eq. reflexivity.
Qed.

(** * Further properties *)

(** ** [int] of the decimal rendering of an integer *)

Lemma N_digit_cases (d : N) :
  (d < 10)%N ->
  (d = 0 \/ d = 1 \/ d = 2 \/ d = 3 \/ d = 4 \/ d = 5 \/ d = 6 \/ d = 7 \/
   d = 8 \/ d = 9)%N.
Proof. lia. Qed.

Ltac each_digit d H :=
  destruct (N_digit_cases d H) as
    [-> | [-> | [-> | [-> | [-> | [-> | [-> | [-> | [-> | ->]]]]]]]]].

Lemma digit_of_pretty_char (d : N) :
  (d < 10)%N -> digit_of (pretty_N_char d) = Some (Z.of_N d).
Proof. intros H. each_digit d H; reflexivity. Qed.

Lemma pretty_char_not_space (d : N) :
  (d < 10)%N -> negb (is_py_space (pretty_N_char d)) = true.
Proof. intros H. each_digit d H; reflexivity. Qed.

Lemma mod_10_lt (x : N) : (x `mod` 10 < 10)%N.
Proof. apply N.mod_lt. discriminate. Qed.

Lemma str_forall_pretty_go (P : ascii -> bool) (x : N) (s : string) :
  (forall d, (d < 10)%N -> P (pretty_N_char d) = true) ->
  str_forall P s = true -> str_forall P (pretty_N_go x s) = true.
Proof.
  intros HP. revert s.
  induction (N.lt_wf_0 x) as [x _ IH]. intros s Hs.
  destruct (N.eq_dec x 0%N) as [-> | Hx]; [exact Hs | ].
  rewrite pretty_N_go_step by lia.
  apply IH; [apply N.div_lt; lia | ].
  cbn [str_forall]. rewrite HP by apply mod_10_lt. exact Hs.
Qed.

(** The rendering of a positive number starts with a digit. *)
Lemma pretty_go_head (x : N) (s : string) :
  (0 < x)%N ->
  exists d r, (d < 10)%N /\ pretty_N_go x s = String (pretty_N_char d) r.
Proof.
  revert s. induction (N.lt_wf_0 x) as [x _ IH]. intros s Hx.
  rewrite pretty_N_go_step by exact Hx.
  destruct (N.eq_dec (x `div` 10)%N 0%N) as [E | E].
  - rewrite E. exists (x `mod` 10)%N, s. split; [apply mod_10_lt | reflexivity].
  - apply IH; [apply N.div_lt; lia | apply N.neq_0_lt_0, E].
Qed.

(** Reading the rendering of [x] in front of [s] shifts the accumulator by
    the digits of [x]. *)
Lemma digits_go_pretty_go (x : N) :
  exists k : Z, 0 <= k /\
    forall (s : string) (acc : Z),
      digits_go acc (pretty_N_go x s) = digits_go (acc * 10 ^ k + Z.of_N x) s.
Proof.
  induction (N.lt_wf_0 x) as [x _ IH].
  destruct (N.eq_dec x 0%N) as [-> | Hx].
  - exists 0. split; [lia | ]. intros s acc. cbn. f_equal. lia.
  - destruct (IH (x `div` 10)%N) as (k & Hk & Hgo); [apply N.div_lt; lia | ].
    exists (k + 1). split; [lia | ]. intros s acc.
    rewrite pretty_N_go_step, Hgo by lia. cbn [digits_go].
    rewrite digit_of_pretty_char by apply mod_10_lt. f_equal.
    rewrite Z.pow_add_r, Z.pow_1_r by lia.
    pose proof (N.div_mod x 10 ltac:(discriminate)) as Hdm.
    rewrite N2Z.inj_div, N2Z.inj_mod in *.
    pose proof (Z.div_mod (Z.of_N x) 10 ltac:(discriminate)) as Hz.
    change (Z.of_N 10) with 10. lia.
Qed.

Lemma digits_pretty_go (x : N) :
  (0 < x)%N -> digits (pretty_N_go x "") = Some (Z.of_N x).
Proof.
  intros Hx. destruct (digits_go_pretty_go x) as (k & _ & Hgo).
  specialize (Hgo "" 0). cbn [digits_go] in Hgo.
  destruct (pretty_go_head x "" Hx) as (d & r & Hd & E).
  rewrite E in *. unfold digits. cbn [digits_go] in Hgo.
  rewrite digit_of_pretty_char in * by exact Hd.
  replace (10 * 0 + Z.of_N d) with (Z.of_N d) in Hgo by lia.
  rewrite Hgo. reflexivity.
Qed.

Lemma rev_app_rev_app (s1 s2 s3 : string) :
  String.rev_app (String.rev_app s1 s2) s3 = String.rev_app s2 (s1 +:+ s3).
Proof.
  revert s2 s3. induction s1 as [ | a s1 IH]; intros s2 s3; [reflexivity | ].
  cbn [String.rev_app]. rewrite IH. reflexivity.
Qed.

Lemma app_nil_r_str (s : string) : s +:+ "" = s.
Proof.
  induction s as [ | a s IH]; [reflexivity | ].
  rewrite app_cons, IH. reflexivity.
Qed.

Lemma rev_rev (s : string) : String.rev (String.rev s) = s.
Proof.
  unfold String.rev. rewrite rev_app_rev_app. cbn [String.rev_app].
  apply app_nil_r_str.
Qed.

Lemma str_forall_rev_app (P : ascii -> bool) (s1 s2 : string) :
  str_forall P s1 = true -> str_forall P s2 = true ->
  str_forall P (String.rev_app s1 s2) = true.
Proof.
  revert s2. induction s1 as [ | a s1 IH]; intros s2 H1 H2; [exact H2 | ].
  cbn [str_forall] in H1. apply andb_true_iff in H1 as [Ha H1].
  cbn [String.rev_app]. apply IH; [exact H1 | ].
  cbn [str_forall]. rewrite Ha. exact H2.
Qed.

Lemma str_lstrip_no_space (s : string) :
  str_forall (fun c => negb (is_py_space c)) s = true -> str_lstrip s = s.
Proof.
  destruct s as [ | c r]; [reflexivity | ].
  cbn [str_forall str_lstrip]. intros H. apply andb_true_iff in H as [Hc _].
  apply negb_true_iff in Hc. rewrite Hc. reflexivity.
Qed.

(** A string without whitespace is its own [strip()]. *)
Lemma str_strip_no_space (s : string) :
  str_forall (fun c => negb (is_py_space c)) s = true -> str_strip s = s.
Proof.
  intros H. unfold str_strip.
  rewrite (str_lstrip_no_space s H).
  rewrite str_lstrip_no_space; [apply rev_rev | ].
  apply str_forall_rev_app; [exact H | reflexivity].
Qed.

Lemma pretty_go_no_space (x : N) :
  str_forall (fun c => negb (is_py_space c)) (pretty_N_go x "") = true.
Proof.
  apply str_forall_pretty_go; [apply pretty_char_not_space | reflexivity].
Qed.

Lemma int_of_str_pretty_pos (p : positive) :
  int_of_str (pretty_N_go (Npos p) "") = Some (Zpos p).
Proof.
  unfold int_of_str. rewrite str_strip_no_space by apply pretty_go_no_space.
  pose proof (digits_pretty_go (Npos p) ltac:(lia)) as Hd.
  destruct (pretty_go_head (Npos p) "" ltac:(lia)) as (d & r & Hlt & E).
  rewrite E in *. each_digit d Hlt; exact Hd.
Qed.

(** [int(str(n)) == n]: the reading of a subject undoes the decimal
    rendering of an integer, negative numbers included. *)
Lemma int_of_str_pretty :
  forall n : Z, int_of_str (pretty n) = Some n.
Proof.
  intros [ | p | p].
  - reflexivity.
  - apply int_of_str_pretty_pos.
  - change (pretty (Zneg p)) with (String "-" (pretty_N_go (Npos p) "")).
    unfold int_of_str. rewrite str_strip_no_space.
    + rewrite digits_pretty_go by lia. reflexivity.
    + cbn [str_forall]. rewrite pretty_go_no_space. reflexivity.
Qed.

(** ** Lifetimes and ttl of issued tokens *)

Lemma quot_timedelta_seconds (n : Z) :
  int_total_seconds (timedelta_seconds n) = n.
Proof.
  unfold timedelta_seconds. apply int_total_seconds_mul.
Qed.

(** X1. An explicit lifetime of an access token: a zero [expires_delta] is
    falsy and gives what no [expires_delta] gives; any other duration [d]
    gives the expiry [now + d] and a ttl that is positive only from one
    second on and that, for a duration under 2^34 seconds, is [d] truncated
    toward zero to whole seconds. *)
Theorem create_access_token_explicit_lifetime `{J : Jose} :
  forall (settings : Settings) (now : Z) (sub : string) (kwargs : pydict)
         (st : redis),
    create_access_token settings now sub (Some 0) kwargs st =
      create_access_token settings now sub None kwargs st /\
    (forall (d : Z) (token : string),
       d <> 0 ->
       jose_encode (issued_claims (now + d) sub kwargs)
         (TOKEN_SECRET_KEY settings) (TOKEN_ALGORITHM settings) = Ok token ->
       exists st' ttl,
         create_access_token settings now sub (Some d) kwargs st =
           (Ok (token, now + d), st') /\
         st' !! token_key (TOKEN_REDIS_PREFIX settings) sub token =
           Some (token, ttl) /\
         (0 < ttl <-> 1000000 <= d) /\
         (Z.abs d < 2 ^ 34 * 1000000 -> ttl = Z.quot d 1000000) /\
         (0 <= d < 2 ^ 34 * 1000000 ->
            ttl * 1000000 <= d < (ttl + 1) * 1000000)).
Proof.
  intros settings now sub kwargs st. split; [reflexivity | ].
  intros d token Hd Henc.
  rewrite create_access_token_run. cbn [access_expiry].
  apply Z.eqb_neq in Hd. rewrite Hd, Henc.
  eexists _, _. split; [reflexivity | ].
  split; [apply lookup_insert_eq | ].
  split; [apply int_total_seconds_pos | ].
  split; [apply int_total_seconds_exact | ].
  intros [H0 Hlt]. rewrite int_total_seconds_exact by lia.
  rewrite Z.quot_div_nonneg by lia.
  pose proof (Z.div_mod d 1000000 ltac:(discriminate)).
  pose proof (Z.mod_pos_bound d 1000000 ltac:(reflexivity)). lia.
Qed.

(** X2. Anchoring a refresh token at the current time is the same as not
    anchoring it. *)
Theorem create_refresh_token_anchor_now `{J : Jose} :
  forall (settings : Settings) (now : Z) (sub : string) (kwargs : pydict)
         (st : redis),
    create_refresh_token settings now sub (Some now) kwargs st =
      create_refresh_token settings now sub None kwargs st.
Proof.
  intros settings now sub kwargs st.
  rewrite !create_refresh_token_run. cbn [refresh_expiry].
  replace (now + timedelta_seconds (TOKEN_REFRESH_EXPIRE_SECONDS settings) - now)
    with (timedelta_seconds (TOKEN_REFRESH_EXPIRE_SECONDS settings)) by lia.
  rewrite quot_timedelta_seconds. reflexivity.
Qed.

(** X3. The ttl of an anchored refresh token against the refresh lifetime:
    never above it for an anchor in the past, never below it for an anchor
    in the future, and zero or negative once the anchor is older than the
    lifetime. *)
Theorem create_refresh_token_anchor_ttl `{J : Jose} :
  forall (settings : Settings) (now t : Z) (sub : string) (kwargs : pydict)
         (st : redis) (token : string),
    let lifetime := TOKEN_REFRESH_EXPIRE_SECONDS settings in
    jose_encode (issued_claims (t + timedelta_seconds lifetime) sub kwargs)
      (TOKEN_SECRET_KEY settings) (TOKEN_ALGORITHM settings) = Ok token ->
    exists ttl,
      (create_refresh_token settings now sub (Some t) kwargs st).2
        !! token_key (TOKEN_REFRESH_REDIS_PREFIX settings) sub token =
        Some (token, ttl) /\
      (t <= now -> ttl <= lifetime) /\
      (now <= t -> lifetime <= ttl) /\
      (t + timedelta_seconds lifetime <= now -> ttl <= 0).
Proof.
  intros settings now t sub kwargs st token lifetime Henc.
  rewrite create_refresh_token_run. cbn [refresh_expiry]. fold lifetime.
  rewrite Henc. cbn [snd]. eexists. split; [apply lookup_insert_eq | ].
  split; [ | split].
  - intros Hle. rewrite <- (quot_timedelta_seconds lifetime) at 2.
    apply int_total_seconds_mono. lia.
  - intros Hle. rewrite <- (quot_timedelta_seconds lifetime) at 1.
    apply int_total_seconds_mono. lia.
  - intros Hle. change 0 with (int_total_seconds 0).
    apply int_total_seconds_mono. lia.
Qed.

Lemma create_refresh_token_anchor_ttl_witness :
  exists ttl,
    (create_refresh_token (J := Reference.jose) example_settings
       700000000000 "7" (Some 0) roles_1_2 ∅).2
      !! token_key "fba_refresh_token" "7"
           (example_token (issued_claims 604800000000 "7" roles_1_2)) =
      Some (example_token (issued_claims 604800000000 "7" roles_1_2), ttl) /\
    ttl <= 0.
Proof.
  destruct (create_refresh_token_anchor_ttl (J := Reference.jose)
              example_settings 700000000000 0 "7" roles_1_2 ∅
              (example_token (issued_claims 604800000000 "7" roles_1_2)))
    as (ttl & H1 & _ & _ & H2).
  - vm_compute. reflexivity.
  - exists ttl. split; [exact H1 | ]. apply H2. vm_compute. discriminate.
Defined.

(** X4. When the library refuses to encode, an issuing call raises what the
    library raised and leaves the store as it was: the prefix delete comes
    after the encoding, also with [multi_login=False]. *)
Theorem failed_encode_leaves_store `{J : Jose} :
  forall (settings : Settings) (now : Z) (sub : string)
         (expires_delta expire_time : option Z) (kwargs : pydict) (st : redis)
         (e : exn),
    (jose_encode
       (issued_claims (access_expiry settings now expires_delta).1 sub kwargs)
       (TOKEN_SECRET_KEY settings) (TOKEN_ALGORITHM settings) = Raise e ->
     create_access_token settings now sub expires_delta kwargs st =
       (Raise e, st)) /\
    (jose_encode
       (issued_claims (refresh_expiry settings now expire_time).1 sub kwargs)
       (TOKEN_SECRET_KEY settings) (TOKEN_ALGORITHM settings) = Raise e ->
     create_refresh_token settings now sub expire_time kwargs st =
       (Raise e, st)).
Proof.
  intros settings now sub expires_delta expire_time kwargs st e. split.
  - rewrite create_access_token_run.
    destruct (access_expiry settings now expires_delta) as [x ttl].
    cbn [fst]. intros ->. reflexivity.
  - rewrite create_refresh_token_run.
    destruct (refresh_expiry settings now expire_time) as [x ttl].
    cbn [fst]. intros ->. reflexivity.
Qed.

(** A keyword whose value the library cannot write makes the call raise
    with the earlier session of the subject still in the store. *)
Lemma failed_encode_leaves_store_witness :
  create_access_token (J := Reference.jose) example_settings 0 "42" None
    (<["since" := PDatetime 5]> single_session) one_session =
    (Raise TypeError, one_session).
Proof.
  destruct (failed_encode_leaves_store (J := Reference.jose) example_settings
              0 "42" None None (<["since" := PDatetime 5]> single_session)
              one_session TypeError) as [H _].
  apply H. vm_compute. reflexivity.
Defined.

(** ** What an issued token carries *)

Lemma issued_claims_exp expire sub (kwargs : pydict) :
  kwargs !! "exp" = None ->
  issued_claims expire sub kwargs !! "exp" = Some (PDatetime expire).
Proof.
  intros He. unfold issued_claims, to_encode.
  rewrite lookup_union_r by (rewrite lookup_delete_ne by discriminate; exact He).
  rewrite lookup_insert_ne by discriminate. apply lookup_singleton_eq.
Qed.

Lemma issued_claims_multi_login expire sub (kwargs : pydict) :
  issued_claims expire sub kwargs !! "multi_login" = None.
Proof.
  unfold issued_claims, to_encode. apply lookup_union_None. split.
  - apply lookup_delete_eq.
  - rewrite lookup_insert_ne by discriminate. apply lookup_singleton_ne.
    discriminate.
Qed.

Lemma issued_claims_other expire sub (kwargs : pydict) (k : string) :
  k <> "exp" -> k <> "sub" -> k <> "multi_login" ->
  issued_claims expire sub kwargs !! k = kwargs !! k.
Proof.
  intros He Hs Hm. unfold issued_claims, to_encode.
  rewrite lookup_union_l.
  - apply lookup_delete_ne. congruence.
  - rewrite lookup_insert_ne by congruence. apply lookup_singleton_ne.
    congruence.
Qed.

(** X5. The claims of an issued access token, as the library reads them
    back before the expiry: the subject, the expiry in whole seconds, every
    extra keyword unchanged, and no [multi_login]: that keyword steers the
    call and is not written into the token. *)
Theorem issued_token_claims `{J : Jose} :
  forall (settings : Settings) (now : Z) (sub : string)
         (expires_delta : option Z) (kwargs : pydict) (st : redis),
    let expire := (access_expiry settings now expires_delta).1 in
    jose_supported (TOKEN_ALGORITHM settings) = true ->
    plain_claims (issued_claims expire sub kwargs) ->
    kwargs !! "exp" = None ->
    kwargs !! "sub" = None ->
    exists token st',
      create_access_token settings now sub expires_delta kwargs st =
        (Ok (token, expire), st') /\
      forall utcnow, utcnow <= timegm expire ->
        exists payload,
          jose_decode token (TOKEN_SECRET_KEY settings)
            [TOKEN_ALGORITHM settings] utcnow = Ok payload /\
          payload !! "sub" = Some (PStr sub) /\
          payload !! "exp" = Some (PInt (timegm expire)) /\
          payload !! "multi_login" = None /\
          (forall k, k <> "exp" -> k <> "sub" -> k <> "multi_login" ->
             payload !! k = kwargs !! k).
Proof.
  intros settings now sub expires_delta kwargs st expire
    Hsup Hplain Hexp Hsub.
  destruct (jose_contract _ (TOKEN_SECRET_KEY settings)
              (TOKEN_ALGORITHM settings) expire Hsup Hplain
              (issued_claims_exp _ _ _ Hexp))
    as (token & Henc & Hdec).
  exists token. rewrite create_access_token_run. subst expire.
  destruct (access_expiry settings now expires_delta) as [expire ttl].
  cbn [fst] in *. rewrite Henc. eexists. split; [reflexivity | ].
  intros utcnow Hnow. eexists. split.
  { rewrite Hdec. destruct (Z.leb_spec utcnow (timegm expire)); [ | lia].
    reflexivity. }
  split; [ | split; [ | split]].
  - rewrite lookup_insert_ne by discriminate.
    apply issued_claims_sub, Hsub.
  - apply lookup_insert_eq.
  - rewrite lookup_insert_ne by discriminate.
    apply issued_claims_multi_login.
  - intros k He Hs Hm. rewrite lookup_insert_ne by congruence.
    apply issued_claims_other; assumption.
Qed.

Lemma issued_token_claims_witness :
  exists token st',
    create_access_token (J := Reference.jose) example_settings 0 "42" None
      single_session ∅ = (Ok (token, 86400000000), st') /\
    forall utcnow, utcnow <= 86400 ->
      exists payload,
        jose_decode token "secret" ["HS256"] utcnow = Ok payload /\
        payload !! "sub" = Some (PStr "42") /\
        payload !! "exp" = Some (PInt 86400) /\
        payload !! "multi_login" = None /\
        (forall k, k <> "exp" -> k <> "sub" -> k <> "multi_login" ->
           payload !! k = single_session !! k).
Proof.
  refine (issued_token_claims (J := Reference.jose) example_settings 0 "42"
            None single_session ∅ _ _ _ _).
  - reflexivity.
  - apply (bool_decide_unpack _). vm_compute. exact I.
  - reflexivity.
  - reflexivity.
Defined.

(** X6. An [exp] keyword replaces the expiry written into the token, and
    only that: the call still returns the expiry it computed and registers
    the entry with the ttl it computed, while the token is valid until the
    keyword's time. *)
Theorem exp_keyword_overrides_embedded_expiry `{J : Jose} :
  forall (settings : Settings) (now : Z) (sub : string)
         (expires_delta : option Z) (kwargs : pydict) (st : redis) (e : Z),
    let x := access_expiry settings now expires_delta in
    jose_supported (TOKEN_ALGORITHM settings) = true ->
    plain_claims (issued_claims x.1 sub kwargs) ->
    kwargs !! "exp" = Some (PDatetime e) ->
    exists token st',
      create_access_token settings now sub expires_delta kwargs st =
        (Ok (token, x.1), st') /\
      st' !! token_key (TOKEN_REDIS_PREFIX settings) sub token =
        Some (token, x.2) /\
      forall utcnow,
        (utcnow <= timegm e ->
           exists payload,
             jose_decode token (TOKEN_SECRET_KEY settings)
               [TOKEN_ALGORITHM settings] utcnow = Ok payload /\
             payload !! "exp" = Some (PInt (timegm e))) /\
        (timegm e < utcnow ->
           jose_decode token (TOKEN_SECRET_KEY settings)
             [TOKEN_ALGORITHM settings] utcnow = Raise ExpiredSignatureError).
Proof.
  intros settings now sub expires_delta kwargs st e x Hsup Hplain Hexp.
  assert (issued_claims x.1 sub kwargs !! "exp" = Some (PDatetime e)) as Hc
    by (apply issued_claims_kwarg; [discriminate | exact Hexp]).
  destruct (jose_contract _ (TOKEN_SECRET_KEY settings)
              (TOKEN_ALGORITHM settings) e Hsup Hplain Hc)
    as (token & Henc & Hdec).
  exists token. rewrite create_access_token_run. subst x.
  destruct (access_expiry settings now expires_delta) as [expire ttl].
  cbn [fst snd] in *. rewrite Henc. eexists. split; [reflexivity | ].
  split; [apply lookup_insert_eq | ].
  intros utcnow. rewrite Hdec. split; intros Hnow.
  - destruct (Z.leb_spec utcnow (timegm e)); [ | lia].
    eexists. split; [reflexivity | apply lookup_insert_eq].
  - destruct (Z.leb_spec utcnow (timegm e)); [lia | reflexivity].
Qed.

(** An access token of a day's lifetime that carries an [exp] of ten
    seconds. *)
Lemma exp_keyword_overrides_embedded_expiry_witness :
  let kwargs : pydict := <["exp" := PDatetime 10000000]> roles_1_2 in
  exists token st',
    create_access_token (J := Reference.jose) example_settings 0 "42" None
      kwargs ∅ = (Ok (token, 86400000000), st') /\
    st' !! token_key "fba_token" "42" token = Some (token, 86400) /\
    jose_decode token "secret" ["HS256"] 11 = Raise ExpiredSignatureError.
Proof.
  intros kwargs.
  destruct (exp_keyword_overrides_embedded_expiry (J := Reference.jose)
              example_settings 0 "42" None kwargs ∅ 10000000)
    as (token & st' & H1 & H2 & H3).
  - reflexivity.
  - apply (bool_decide_unpack _). vm_compute. exact I.
  - reflexivity.
  - exists token, st'. split; [exact H1 | ]. split; [exact H2 | ].
    apply (H3 11). vm_compute. reflexivity.
Defined.

(** ** A bearer header and its token *)

(** X7. A header made of a scheme that is [bearer] up to case, one space
    and a token gives back exactly that token, whatever the token holds
    (further spaces included, and the empty token too). *)
Theorem get_token_of_bearer_header :
  forall scheme token : string,
    ci_eq scheme "bearer" ->
    get_token (Some (scheme +:+ " " +:+ token)) = Ok token.
Proof.
  intros scheme token Hci.
  pose proof (ci_eq_no_space _ _ Hci eq_refl) as Hns.
  unfold get_token, get_authorization_scheme_param.
  change (scheme +:+ " " +:+ token) with (scheme +:+ String " " token).
  inversion Hci as [ | a b s t Ha Hs E1 E2]; subst.
  rewrite app_cons. rewrite <- app_cons.
  rewrite str_partition_app by exact Hns.
  rewrite app_cons. cbn [truthy_opt_str negb orb].
  apply scheme_is_bearer in Hci. rewrite Hci. reflexivity.
Qed.

Lemma get_token_of_bearer_header_witness :
  get_token (Some "BeArEr abc 123") = Ok "abc 123".
Proof.
  apply (get_token_of_bearer_header "BeArEr" "abc 123").
  apply scheme_is_bearer. reflexivity.
Defined.

(** ** Authentication of a presented token *)

Lemma jwt_authentication_run `{J : Jose} settings utcnow token st :
  jwt_authentication settings utcnow token st =
    match jwt_decode settings utcnow token with
    | Raise e => (Raise e, st)
    | Ok (user_id, _) =>
        match st !! token_key (TOKEN_REDIS_PREFIX settings)
                      (pretty user_id) token with
        | Some (v, _) =>
            if String.eqb v "" then (Raise token_expired, st)
            else (Ok ({["sub" := PInt user_id]} : pydict), st)
        | None => (Raise token_expired, st)
        end
    end.
Proof.
  unfold jwt_authentication, mbind, M_bind, lift, redis_get.
  destruct (jwt_decode settings utcnow token) as [[user_id roles] | e];
    [ | reflexivity].
  destruct (st !! token_key _ (pretty user_id) token) as [[v ttl] | ];
    [ | reflexivity].
  destruct v; reflexivity.
Qed.

(** What [jwt_decode] returns for a token the module issued. *)
Lemma jwt_decode_issued `{J : Jose} settings utcnow expire sub
    (kwargs : pydict) e n roles token :
  jose_supported (TOKEN_ALGORITHM settings) = true ->
  plain_claims (issued_claims expire sub kwargs) ->
  issued_claims expire sub kwargs !! "exp" = Some (PDatetime e) ->
  kwargs !! "sub" = None ->
  int_of_str sub = Some n -> n <> 0 ->
  kwargs !! "role_ids" = Some (PList roles) -> roles <> [] ->
  jose_encode (issued_claims expire sub kwargs)
    (TOKEN_SECRET_KEY settings) (TOKEN_ALGORITHM settings) = Ok token ->
  utcnow <= timegm e ->
  jwt_decode settings utcnow token = Ok (n, roles).
Proof.
  intros Hsup Hplain Hexp Hnosub Hint Hn Hroles Hne Henc Hnow.
  destruct (jose_contract _ (TOKEN_SECRET_KEY settings)
              (TOKEN_ALGORITHM settings) e Hsup Hplain Hexp)
    as (token' & Henc' & Hdec).
  rewrite Henc in Henc'. injection Henc' as <-.
  rewrite jwt_decode_unfold, Hdec.
  destruct (Z.leb_spec utcnow (timegm e)) as [_ | Hlt]; [ | lia].
  unfold dict_get.
  rewrite (lookup_insert_ne _ "exp" "sub") by discriminate.
  rewrite (lookup_insert_ne _ "exp" "role_ids") by discriminate.
  rewrite (issued_claims_sub _ _ _ Hnosub).
  rewrite (issued_claims_kwarg _ _ _ "role_ids" _ ltac:(discriminate) Hroles).
  cbn. rewrite Hint.
  destruct (Z.eqb_spec n 0) as [ | _]; [contradiction | ].
  destruct roles; [contradiction | reflexivity].
Qed.

(** [jwt_decode] returns or raises the plain [TokenError]. *)
Lemma jwt_decode_returns_or_token_error `{J : Jose} settings utcnow token :
  (exists n roles, jwt_decode settings utcnow token = Ok (n, roles)) \/
  jwt_decode settings utcnow token = Raise (TokenError None).
Proof.
  rewrite jwt_decode_unfold.
  destruct (jose_decode _ _ _ _) as [payload | e]; [ | right; reflexivity].
  destruct (py_int _) as [n | e]; [ | right; reflexivity].
  destruct (py_list _) as [roles | e]; [ | right; reflexivity].
  destruct (_ || _); [right; reflexivity | left; eauto].
Qed.

(** X8. [jwt_authentication] never writes to the store.  It raises the
    plain [TokenError] of [jwt_decode] when decoding fails, the "expired"
    [TokenError] when the entry for the integer subject and the token is
    absent or empty, and returns [{'sub': user_id}] otherwise; the stored
    value is only tested for truth, not compared with the token. *)
Theorem jwt_authentication_outcome `{J : Jose} :
  forall (settings : Settings) (utcnow : Z) (token : string) (st : redis),
    let run := jwt_authentication settings utcnow token st in
    let entry n :=
      st !! token_key (TOKEN_REDIS_PREFIX settings) (pretty n) token in
    run.2 = st /\
    (forall e, jwt_decode settings utcnow token = Raise e ->
       run.1 = Raise (TokenError None)) /\
    (forall n roles, jwt_decode settings utcnow token = Ok (n, roles) ->
       (entry n = None \/ exists ttl, entry n = Some ("", ttl)) ->
       run.1 = Raise token_expired) /\
    (forall n roles v ttl, jwt_decode settings utcnow token = Ok (n, roles) ->
       entry n = Some (v, ttl) -> v <> "" ->
       run.1 = Ok {["sub" := PInt n]}).
Proof.
  intros settings utcnow token st run entry. subst run entry.
  rewrite jwt_authentication_run.
  split; [ | split; [ | split]].
  - destruct (jwt_decode settings utcnow token) as [[n roles] | e];
      [ | reflexivity].
    destruct (st !! _) as [[v ttl] | ]; [ | reflexivity].
    destruct (String.eqb v ""); reflexivity.
  - intros e He.
    destruct (jwt_decode_returns_or_token_error settings utcnow token) as [H | H].
    + destruct H as (n & roles & H). rewrite H in He. discriminate He.
    + rewrite H. reflexivity.
  - intros n roles -> [-> | [ttl ->]]; reflexivity.
  - intros n roles v ttl -> -> Hv.
    apply String.eqb_neq in Hv. rewrite Hv. reflexivity.
Qed.

Lemma length_app_str (a b : string) :
  String.length (a +:+ b) = (String.length a + String.length b)%nat.
Proof.
  induction a as [ | c a IH]; [reflexivity | ].
  rewrite app_cons. cbn [String.length]. rewrite IH. reflexivity.
Qed.

Lemma app_inv_tail_str (a b c : string) : a +:+ c = b +:+ c -> a = b.
Proof.
  revert b. induction a as [ | x a IH]; intros [ | y b] H.
  - reflexivity.
  - apply (f_equal String.length) in H.
    rewrite !length_app_str in H. cbn [String.length] in H. lia.
  - apply (f_equal String.length) in H.
    rewrite !length_app_str in H. cbn [String.length] in H. lia.
  - rewrite !app_cons in H. injection H as -> H. f_equal. exact (IH _ H).
Qed.

(** Under one prefix and for one token, the key tells the subject. *)
Lemma token_key_inj_sub (prefix sub sub' token : string) :
  token_key prefix sub token = token_key prefix sub' token -> sub = sub'.
Proof.
  unfold token_key. intros H.
  apply (inj (String.app prefix)) in H. apply (inj (String.app ":")) in H.
  exact (app_inv_tail_str _ _ _ H).
Qed.

(** X9. A token presented after its embedded expiry fails authentication
    with the store untouched, whatever the store holds for it. *)
Theorem jwt_authentication_after_expiry `{J : Jose} :
  forall (settings : Settings) (utcnow : Z) (claims : pydict) (e : Z)
         (token : string) (st : redis),
    jose_supported (TOKEN_ALGORITHM settings) = true ->
    plain_claims claims ->
    claims !! "exp" = Some (PDatetime e) ->
    jose_encode claims (TOKEN_SECRET_KEY settings) (TOKEN_ALGORITHM settings)
      = Ok token ->
    timegm e < utcnow ->
    jwt_authentication settings utcnow token st = (Raise (TokenError None), st).
Proof.
  intros settings utcnow claims e token st Hsup Hplain Hexp Henc Hlate.
  rewrite jwt_authentication_run.
  rewrite (jwt_decode_after_expiry settings utcnow claims e token
             Hsup Hplain Hexp Henc Hlate).
  reflexivity.
Qed.

(** The entry of the token is still in the store a second after the
    expiry. *)
Lemma jwt_authentication_after_expiry_witness :
  let claims := issued_claims 86400000000 "42" roles_1_2 in
  let token := example_token claims in
  let st : redis := {[token_key "fba_token" "42" token := (token, 86400)]} in
  jwt_authentication (J := Reference.jose) example_settings 86401 token st =
    (Raise (TokenError None), st).
Proof.
  intros claims token st.
  apply (jwt_authentication_after_expiry (J := Reference.jose)
           example_settings 86401 claims 86400000000 token st).
  - reflexivity.
  - apply (bool_decide_unpack _). vm_compute. exact I.
  - reflexivity.
  - vm_compute. reflexivity.
  - vm_compute. reflexivity.
Defined.

(** X10. Issue, then authenticate: an access token issued for the decimal
    rendering of a non-zero user id, with a non-empty list of role ids and
    plain extra claims, authenticates before its expiry on the store the
    issuing call left, and the result names that user id. *)
Theorem issue_then_authenticate `{J : Jose} :
  forall (settings : Settings) (now utcnow n : Z) (expires_delta : option Z)
         (kwargs : pydict) (st : redis) (e : Z) (roles : list pyval),
    let sub := pretty n in
    let expire := (access_expiry settings now expires_delta).1 in
    let claims := issued_claims expire sub kwargs in
    jose_supported (TOKEN_ALGORITHM settings) = true ->
    plain_claims claims ->
    claims !! "exp" = Some (PDatetime e) ->
    kwargs !! "sub" = None ->
    n <> 0 ->
    kwargs !! "role_ids" = Some (PList roles) -> roles <> [] ->
    utcnow <= timegm e ->
    exists token st',
      create_access_token settings now sub expires_delta kwargs st =
        (Ok (token, expire), st') /\
      jwt_authentication settings utcnow token st' =
        (Ok {["sub" := PInt n]}, st').
Proof.
  intros settings now utcnow n expires_delta kwargs st e roles sub expire
    claims Hsup Hplain Hexp Hnosub Hn Hroles Hne Hnow.
  destruct (jose_contract claims (TOKEN_SECRET_KEY settings)
              (TOKEN_ALGORITHM settings) e Hsup Hplain Hexp)
    as (token & Henc & _).
  destruct (jose_token_shape _ _ _ _ Henc) as [Hnonempty _].
  pose proof (jwt_decode_issued settings utcnow expire sub kwargs e n roles
                token Hsup Hplain Hexp Hnosub (int_of_str_pretty n) Hn Hroles
                Hne Henc Hnow) as Hdec.
  exists token. rewrite create_access_token_run. subst expire claims.
  destruct (access_expiry settings now expires_delta) as [expire ttl].
  cbn [fst] in *. rewrite Henc. eexists. split; [reflexivity | ].
  rewrite jwt_authentication_run, Hdec. fold sub.
  rewrite lookup_insert_eq.
  apply String.eqb_neq in Hnonempty. rewrite Hnonempty. reflexivity.
Qed.

Lemma issue_then_authenticate_witness :
  exists token st',
    create_access_token (J := Reference.jose) example_settings 0 "42" None
      roles_1_2 one_session = (Ok (token, 86400000000), st') /\
    jwt_authentication (J := Reference.jose) example_settings 10 token st' =
      (Ok {["sub" := PInt 42]}, st').
Proof.
  refine (issue_then_authenticate (J := Reference.jose) example_settings 0 10
            42 None roles_1_2 one_session 86400000000 [PInt 1; PInt 2]
            _ _ _ _ _ _ _ _).
  - reflexivity.
  - apply (bool_decide_unpack _). vm_compute. exact I.
  - vm_compute. reflexivity.
  - reflexivity.
  - discriminate.
  - reflexivity.
  - discriminate.
  - vm_compute. discriminate.
Defined.

(** ** Revocation by a single-session issuance *)

(** The store after a single-session issuance holds nothing else under the
    subject's prefix. *)
Lemma single_session_other_token (prefix sub token other : string)
    (ttl : Z) (st : redis) :
  other <> token ->
  <[token_key prefix sub token := (token, ttl)]>
    (after_delete (PBool false) (subject_prefix prefix sub) st)
    !! token_key prefix sub other = None.
Proof.
  intros Hne. rewrite issued_store_lookup.
  rewrite decide_False by (intros H; apply token_key_inj in H; congruence).
  cbn [is_False andb]. rewrite token_key_startswith. reflexivity.
Qed.

(** X11. After an access token is issued with [multi_login=False] for a
    user, every other token of that user fails authentication with the
    "expired" error, although it still decodes. *)
Theorem single_session_revokes_access `{J : Jose} :
  forall (settings : Settings) (now utcnow n : Z) (expires_delta : option Z)
         (kwargs : pydict) (st : redis) (token old : string)
         (roles : list pyval),
    let x := access_expiry settings now expires_delta in
    kwargs !! "multi_login" = Some (PBool false) ->
    jose_encode (issued_claims x.1 (pretty n) kwargs)
      (TOKEN_SECRET_KEY settings) (TOKEN_ALGORITHM settings) = Ok token ->
    old <> token ->
    jwt_decode settings utcnow old = Ok (n, roles) ->
    exists st',
      create_access_token settings now (pretty n) expires_delta kwargs st =
        (Ok (token, x.1), st') /\
      jwt_authentication settings utcnow old st' = (Raise token_expired, st').
Proof.
  intros settings now utcnow n expires_delta kwargs st token old roles x
    Hm Henc Hne Hdec.
  rewrite create_access_token_run. subst x.
  destruct (access_expiry settings now expires_delta) as [expire ttl].
  cbn [fst] in *. rewrite Henc. eexists. split; [reflexivity | ].
  rewrite jwt_authentication_run, Hdec.
  unfold dict_get. rewrite Hm. cbn [default from_option id].
  rewrite single_session_other_token by exact Hne. reflexivity.
Qed.

Lemma single_session_revokes_access_witness :
  let old := example_token (issued_claims 86400000000 "42" roles_1_2) in
  let token := example_token (issued_claims 86405000000 "42" single_session) in
  let st : redis := {[token_key "fba_token" "42" old := (old, 86400)]} in
  jwt_authentication (J := Reference.jose) example_settings 10 old st =
    (Ok {["sub" := PInt 42]}, st) /\
  exists st',
    create_access_token (J := Reference.jose) example_settings 5000000 "42"
      None single_session st = (Ok (token, 86405000000), st') /\
    jwt_authentication (J := Reference.jose) example_settings 10 old st' =
      (Raise token_expired, st').
Proof.
  intros old token st.
  assert (jwt_decode (J := Reference.jose) example_settings 10 old =
          Ok (42, [PInt 1; PInt 2])) as Hdec by (vm_compute; reflexivity).
  split.
  - rewrite jwt_authentication_run, Hdec.
    change (TOKEN_REDIS_PREFIX example_settings) with "fba_token".
    change (pretty 42) with "42". subst st. rewrite lookup_singleton_eq.
    assert (String.eqb old "" = false) as -> by (vm_compute; reflexivity).
    reflexivity.
  - refine (single_session_revokes_access (J := Reference.jose)
              example_settings 5000000 10 42 None single_session st token old
              [PInt 1; PInt 2] _ _ _ Hdec).
    + reflexivity.
    + vm_compute. reflexivity.
    + vm_compute. discriminate.
Defined.

(** X12. Authentication looks the entry up under the decimal rendering of
    the integer [jwt_decode] returns.  Take a token issued for a subject of
    at most 4300 characters that [jwt_decode] decodes to the integer [n]
    (so the subject reads as a non-zero integer and the roles are not
    empty), the subject not being the rendering of [n]: ["042"], ["+42"],
    [" 42"].  It is registered under a key authentication never reads:
    unless the store already holds an entry under the rendered key, the
    token fails with the "expired" error right after it was issued. *)
Theorem noncanonical_subject_never_authenticates `{J : Jose} :
  forall (settings : Settings) (now utcnow n : Z) (sub : string)
         (expires_delta : option Z) (kwargs : pydict) (st : redis)
         (token : string) (roles : list pyval),
    let x := access_expiry settings now expires_delta in
    jose_encode (issued_claims x.1 sub kwargs)
      (TOKEN_SECRET_KEY settings) (TOKEN_ALGORITHM settings) = Ok token ->
    (String.length sub <= 4300)%nat ->
    jwt_decode settings utcnow token = Ok (n, roles) ->
    sub <> pretty n ->
    st !! token_key (TOKEN_REDIS_PREFIX settings) (pretty n) token = None ->
    exists st',
      create_access_token settings now sub expires_delta kwargs st =
        (Ok (token, x.1), st') /\
      st' !! token_key (TOKEN_REDIS_PREFIX settings) sub token =
        Some (token, x.2) /\
      jwt_authentication settings utcnow token st' = (Raise token_expired, st').
Proof.
  intros settings now utcnow n sub expires_delta kwargs st token roles x
    Henc _ Hdec Hsub Hst.
  rewrite create_access_token_run. subst x.
  destruct (access_expiry settings now expires_delta) as [expire ttl].
  cbn [fst snd] in *. rewrite Henc. eexists. split; [reflexivity | ].
  split; [apply lookup_insert_eq | ].
  rewrite jwt_authentication_run, Hdec, issued_store_lookup.
  rewrite decide_False
    by (intros H; apply token_key_inj_sub in H; congruence).
  rewrite Hst. destruct (_ && _); reflexivity.
Qed.

Lemma noncanonical_subject_never_authenticates_witness :
  let token := example_token (issued_claims 86400000000 "042" roles_1_2) in
  exists st',
    create_access_token (J := Reference.jose) example_settings 0 "042" None
      roles_1_2 ∅ = (Ok (token, 86400000000), st') /\
    st' !! token_key "fba_token" "042" token = Some (token, 86400) /\
    jwt_authentication (J := Reference.jose) example_settings 10 token st' =
      (Raise token_expired, st').
Proof.
  intros token.
  refine (noncanonical_subject_never_authenticates (J := Reference.jose)
            example_settings 0 10 42 "042" None roles_1_2 ∅ token
            [PInt 1; PInt 2] _ _ _ _ _).
  - vm_compute. reflexivity.
  - vm_compute. lia.
  - vm_compute. reflexivity.
  - discriminate.
  - apply lookup_empty.
Defined.

(** ** Keywords and revocation in the renewal *)

(** X13. The keywords of [create_new_token] reach [create_access_token]:
    with [multi_login=False] among them, a successful renewal leaves the new
    access token as the only entry of the subject's access session set.  A
    renewal can thus log every other access session of the user out. *)
Theorem create_new_token_single_session `{J : Jose} :
  forall (settings : Settings) (now : Z) (sub refresh_token : string)
         (kwargs : pydict) (st : redis) (ttl0 : Z) (token : string),
    let x := access_expiry settings now None in
    refresh_token <> "" ->
    st !! token_key (TOKEN_REFRESH_REDIS_PREFIX settings) sub refresh_token =
      Some (refresh_token, ttl0) ->
    kwargs !! "expires_delta" = None ->
    kwargs !! "multi_login" = Some (PBool false) ->
    jose_encode (issued_claims x.1 sub kwargs)
      (TOKEN_SECRET_KEY settings) (TOKEN_ALGORITHM settings) = Ok token ->
    exists st',
      create_new_token settings now sub refresh_token kwargs st =
        (Ok (token, x.1), st') /\
      session_set (TOKEN_REDIS_PREFIX settings) sub st' =
        {[token_key (TOKEN_REDIS_PREFIX settings) sub token := (token, x.2)]}.
Proof.
  intros settings now sub refresh_token kwargs st ttl0 token x
    Hne Hst Hd Hm Henc.
  rewrite create_new_token_run, Hst, String.eqb_refl.
  apply String.eqb_neq in Hne. rewrite Hne. cbn [negb andb].
  unfold call_create_access_token. rewrite Hd.
  rewrite create_access_token_run. fold x.
  destruct x as [expire ttl]. cbn [fst snd] in *. rewrite Henc.
  eexists. split; [reflexivity | ].
  unfold dict_get. rewrite Hm. cbn [default from_option id].
  apply session_set_after_delete.
Qed.

Lemma create_new_token_single_session_witness :
  let refresh := example_token (issued_claims 604800000000 "42" roles_1_2) in
  let token := example_token (issued_claims 86400000000 "42" single_session) in
  let st : redis :=
    <[token_key "fba_refresh_token" "42" refresh := (refresh, 604800)]>
      one_session in
  exists st',
    create_new_token (J := Reference.jose) example_settings 0 "42" refresh
      single_session st = (Ok (token, 86400000000), st') /\
    session_set "fba_token" "42" st' =
      {[token_key "fba_token" "42" token := (token, 86400)]}.
Proof.
  intros refresh token st.
  refine (create_new_token_single_session (J := Reference.jose)
            example_settings 0 "42" refresh single_session st 604800 token
            _ _ _ _ _).
  - vm_compute. discriminate.
  - apply lookup_insert_eq.
  - reflexivity.
  - reflexivity.
  - vm_compute. reflexivity.
Defined.

(** X14. An [expires_delta] keyword of [create_new_token] binds the
    parameter of [create_access_token]: a non-zero duration sets the expiry
    of the new access token and its ttl (the duration truncated to whole
    seconds, for a duration under 2^34 seconds), and the keyword is no claim
    of the token. *)
Theorem create_new_token_expires_delta `{J : Jose} :
  forall (settings : Settings) (now d : Z) (sub refresh_token : string)
         (kwargs : pydict) (st : redis) (ttl0 : Z) (token : string),
    refresh_token <> "" ->
    st !! token_key (TOKEN_REFRESH_REDIS_PREFIX settings) sub refresh_token =
      Some (refresh_token, ttl0) ->
    kwargs !! "expires_delta" = Some (PTimedelta d) ->
    d <> 0 ->
    jose_encode (issued_claims (now + d) sub (delete "expires_delta" kwargs))
      (TOKEN_SECRET_KEY settings) (TOKEN_ALGORITHM settings) = Ok token ->
    issued_claims (now + d) sub (delete "expires_delta" kwargs)
      !! "expires_delta" = None /\
    exists st' ttl,
      create_new_token settings now sub refresh_token kwargs st =
        (Ok (token, now + d), st') /\
      st' !! token_key (TOKEN_REDIS_PREFIX settings) sub token =
        Some (token, ttl) /\
      (0 < ttl <-> 1000000 <= d) /\
      (Z.abs d < 2 ^ 34 * 1000000 -> ttl = Z.quot d 1000000).
Proof.
  intros settings now d sub refresh_token kwargs st ttl0 token
    Hne Hst Hd Hnz Henc.
  split.
  { rewrite issued_claims_other by discriminate. apply lookup_delete_eq. }
  rewrite create_new_token_run, Hst, String.eqb_refl.
  apply String.eqb_neq in Hne. rewrite Hne. cbn [negb andb].
  unfold call_create_access_token. rewrite Hd.
  rewrite create_access_token_run. cbn [access_expiry].
  apply Z.eqb_neq in Hnz. rewrite Hnz, Henc.
  eexists _, _. split; [reflexivity | ].
  split; [apply lookup_insert_eq | ].
  split; [apply int_total_seconds_pos | apply int_total_seconds_exact].
Qed.

Lemma create_new_token_expires_delta_witness :
  let refresh := example_token (issued_claims 604800000000 "42" roles_1_2) in
  let kwargs : pydict := <["expires_delta" := PTimedelta 60000000]> roles_1_2 in
  let token := example_token (issued_claims 60000000 "42" roles_1_2) in
  let st : redis :=
    {[token_key "fba_refresh_token" "42" refresh := (refresh, 604800)]} in
  exists st',
    create_new_token (J := Reference.jose) example_settings 0 "42" refresh
      kwargs st = (Ok (token, 60000000), st') /\
    st' !! token_key "fba_token" "42" token = Some (token, 60).
Proof.
  intros refresh kwargs token st.
  destruct (create_new_token_expires_delta (J := Reference.jose)
              example_settings 0 60000000 "42" refresh kwargs st 604800 token)
    as (_ & st' & ttl & H1 & H2 & _ & H3).
  - vm_compute. discriminate.
  - apply lookup_singleton_eq.
  - reflexivity.
  - discriminate.
  - vm_compute. reflexivity.
  - exists st'. split; [exact H1 | ].
    change (TOKEN_REDIS_PREFIX example_settings) with "fba_token" in H2.
    rewrite H2, H3; [reflexivity | ]. vm_compute. reflexivity.
Defined.

(** X15. After a refresh token is issued with [multi_login=False] for a
    subject, every other refresh token of that subject is refused by
    [create_new_token], which leaves the store as it is. *)
Theorem single_session_revokes_refresh `{J : Jose} :
  forall (settings : Settings) (now now' : Z) (sub : string)
         (expire_time : option Z) (kwargs kwargs' : pydict) (st : redis)
         (token old : string),
    let x := refresh_expiry settings now expire_time in
    kwargs !! "multi_login" = Some (PBool false) ->
    jose_encode (issued_claims x.1 sub kwargs)
      (TOKEN_SECRET_KEY settings) (TOKEN_ALGORITHM settings) = Ok token ->
    old <> token ->
    exists st',
      create_refresh_token settings now sub expire_time kwargs st =
        (Ok (token, x.1), st') /\
      create_new_token settings now' sub old kwargs' st' =
        (Raise refresh_expired, st').
Proof.
  intros settings now now' sub expire_time kwargs kwargs' st token old x
    Hm Henc Hne.
  rewrite create_refresh_token_run. subst x.
  destruct (refresh_expiry settings now expire_time) as [expire ttl].
  cbn [fst] in *. rewrite Henc. eexists. split; [reflexivity | ].
  rewrite create_new_token_run.
  unfold dict_get. rewrite Hm. cbn [default from_option id].
  rewrite single_session_other_token by exact Hne. reflexivity.
Qed.

Lemma single_session_revokes_refresh_witness :
  let old := example_token (issued_claims 604800000000 "42" roles_1_2) in
  let token := example_token (issued_claims 604805000000 "42" single_session) in
  let st : redis :=
    {[token_key "fba_refresh_token" "42" old := (old, 604800)]} in
  exists st',
    create_refresh_token (J := Reference.jose) example_settings 5000000 "42"
      None single_session st = (Ok (token, 604805000000), st') /\
    create_new_token (J := Reference.jose) example_settings 6000000 "42" old
      roles_1_2 st' = (Raise refresh_expired, st').
Proof.
  intros old token st.
  refine (single_session_revokes_refresh (J := Reference.jose)
            example_settings 5000000 6000000 "42" None single_session
            roles_1_2 st token old _ _ _).
  - reflexivity.
  - vm_compute. reflexivity.
  - vm_compute. discriminate.
Defined.

(** ** What an issuing call leaves alone *)

Lemma startswith_app_both (p a b : string) :
  startswith (p +:+ a) (p +:+ b) = startswith a b.
Proof.
  induction p as [ | c p IH]; [reflexivity | ].
  rewrite !app_cons. cbn [startswith]. rewrite Ascii.eqb_refl. exact IH.
Qed.

(** The keys of another colon-free subject are not under a subject's
    prefix. *)
Lemma other_subject_not_under_prefix (prefix sub sub' t : string) :
  colon_free sub = true -> colon_free sub' = true -> sub <> sub' ->
  startswith (subject_prefix prefix sub) (token_key prefix sub' t) = false.
Proof.
  intros Hs Hs' Hne. apply not_true_is_false. intros H. apply Hne.
  unfold subject_prefix, token_key in H.
  rewrite startswith_app_both, (startswith_app_both ":") in H.
  exact (startswith_colon_free sub sub' "" t Hs Hs' H).
Qed.

Lemma other_subject_key_differs (prefix sub sub' t t' : string) :
  colon_free sub = true -> colon_free sub' = true -> sub <> sub' ->
  token_key prefix sub t <> token_key prefix sub' t'.
Proof.
  intros Hs Hs' Hne Heq.
  pose proof (other_subject_not_under_prefix prefix sub sub' t' Hs Hs' Hne) as H.
  rewrite <- Heq, token_key_startswith in H. discriminate H.
Qed.

(** X16. Issuing for one subject leaves the entries of every other subject
    as they are, also with [multi_login=False], as long as the two subject
    strings hold no colon. *)
Theorem issuance_leaves_other_subjects `{J : Jose} :
  forall (settings : Settings) (now : Z) (sub sub' : string)
         (expires_delta expire_time : option Z) (kwargs : pydict) (st : redis)
         (t : string),
    colon_free sub = true -> colon_free sub' = true -> sub <> sub' ->
    (create_access_token settings now sub expires_delta kwargs st).2
      !! token_key (TOKEN_REDIS_PREFIX settings) sub' t =
      st !! token_key (TOKEN_REDIS_PREFIX settings) sub' t /\
    (create_refresh_token settings now sub expire_time kwargs st).2
      !! token_key (TOKEN_REFRESH_REDIS_PREFIX settings) sub' t =
      st !! token_key (TOKEN_REFRESH_REDIS_PREFIX settings) sub' t.
Proof.
  intros settings now sub sub' expires_delta expire_time kwargs st t
    Hs Hs' Hne.
  split.
  - rewrite create_access_token_run.
    destruct (access_expiry settings now expires_delta) as [expire ttl].
    destruct (jose_encode _ _ _) as [token | e]; [ | reflexivity].
    cbn [snd]. rewrite issued_store_lookup.
    rewrite decide_False by (apply other_subject_key_differs; assumption).
    rewrite other_subject_not_under_prefix by assumption.
    rewrite andb_false_r. reflexivity.
  - rewrite create_refresh_token_run.
    destruct (refresh_expiry settings now expire_time) as [expire ttl].
    destruct (jose_encode _ _ _) as [token | e]; [ | reflexivity].
    cbn [snd]. rewrite issued_store_lookup.
    rewrite decide_False by (apply other_subject_key_differs; assumption).
    rewrite other_subject_not_under_prefix by assumption.
    rewrite andb_false_r. reflexivity.
Qed.

(** A single-session login of user 42 with a session of user 4 in the
    store. *)
Lemma issuance_leaves_other_subjects_witness :
  let st : redis := {[token_key "fba_token" "4" "t" := ("t", 60)]} in
  (create_access_token (J := Reference.jose) example_settings 0 "42" None
     single_session st).2 !! token_key "fba_token" "4" "t" = Some ("t", 60).
Proof.
  intros st.
  destruct (issuance_leaves_other_subjects (J := Reference.jose)
              example_settings 0 "42" "4" None None single_session st "t")
    as [H _]; [reflexivity | reflexivity | discriminate | ].
  change (TOKEN_REDIS_PREFIX example_settings) with "fba_token" in H.
  rewrite H. apply lookup_singleton_eq.
Defined.

(** X17. With namespaces that partition the keys, issuing an access token
    leaves every refresh entry as it is and issuing a refresh token leaves
    every access entry as it is, also with [multi_login=False]: a
    single-session login in one namespace revokes nothing in the other. *)
Theorem issuance_respects_namespaces `{J : Jose} :
  forall (settings : Settings) (now : Z) (sub sub' : string)
         (expires_delta expire_time : option Z) (kwargs : pydict) (st : redis)
         (t : string),
    namespace_partition settings ->
    (create_access_token settings now sub expires_delta kwargs st).2
      !! token_key (TOKEN_REFRESH_REDIS_PREFIX settings) sub' t =
      st !! token_key (TOKEN_REFRESH_REDIS_PREFIX settings) sub' t /\
    (create_refresh_token settings now sub expire_time kwargs st).2
      !! token_key (TOKEN_REDIS_PREFIX settings) sub' t =
      st !! token_key (TOKEN_REDIS_PREFIX settings) sub' t.
Proof.
  intros settings now sub sub' expires_delta expire_time kwargs st t Hp.
  split.
  - rewrite create_access_token_run.
    destruct (access_expiry settings now expires_delta) as [expire ttl].
    destruct (jose_encode _ _ _) as [token | e]; [ | reflexivity].
    cbn [snd]. rewrite issued_store_lookup.
    rewrite decide_False by (apply refresh_key_not_access_key, Hp).
    rewrite (refresh_key_not_under_access _ _ _ _ Hp), andb_false_r.
    reflexivity.
  - destruct Hp as (Ha & Hr & Hne).
    assert (forall s,
              startswith
                (subject_prefix (TOKEN_REFRESH_REDIS_PREFIX settings) s)
                (token_key (TOKEN_REDIS_PREFIX settings) sub' t) = false)
      as Hunder.
    { intros s. apply not_true_is_false. intros H. apply Hne. symmetry.
      unfold subject_prefix, token_key in H.
      exact (startswith_colon_free _ _ _ _ Hr Ha H). }
    rewrite create_refresh_token_run.
    destruct (refresh_expiry settings now expire_time) as [expire ttl].
    destruct (jose_encode _ _ _) as [token | e]; [ | reflexivity].
    cbn [snd]. rewrite issued_store_lookup.
    rewrite decide_False.
    + rewrite Hunder, andb_false_r. reflexivity.
    + intros Heq. specialize (Hunder sub).
      rewrite <- Heq, token_key_startswith in Hunder. discriminate Hunder.
Qed.

(** A single-session login of user 42 with a refresh token of the same
    user in the store. *)
Lemma issuance_respects_namespaces_witness :
  let st : redis := {[token_key "fba_refresh_token" "42" "r" := ("r", 60)]} in
  (create_access_token (J := Reference.jose) example_settings 0 "42" None
     single_session st).2 !! token_key "fba_refresh_token" "42" "r" =
    Some ("r", 60).
Proof.
  intros st.
  destruct (issuance_respects_namespaces (J := Reference.jose)
              example_settings 0 "42" "42" None None single_session st "r"
              example_settings_partition) as [H _].
  change (TOKEN_REFRESH_REDIS_PREFIX example_settings)
    with "fba_refresh_token" in H.
  rewrite H. apply lookup_singleton_eq.
Defined.

(** ** From a token to a user *)

Lemma jwt_decode_ok_nonzero `{J : Jose} settings utcnow token n roles :
  jwt_decode settings utcnow token = Ok (n, roles) -> n <> 0 /\ roles <> [].
Proof.
  rewrite jwt_decode_unfold.
  destruct (jose_decode _ _ _ _) as [payload | e]; [ | discriminate].
  destruct (py_int _) as [m | e]; [ | discriminate].
  destruct (py_list _) as [rs | e]; [ | discriminate].
  destruct (Z.eqb_spec m 0) as [ | Hm]; [discriminate | ].
  destruct rs as [ | r rs]; [discriminate | ].
  cbn [orb]. intros H. injection H as <- <-. split; [exact Hm | discriminate].
Qed.

(** X18. From a token to a user: when [jwt_authentication] returns, its
    result names the non-zero integer subject that [jwt_decode] read from
    the token, the store is untouched, and [get_current_user] on that result
    resolves exactly the user stored under that integer. *)
Theorem authenticated_user_lookup `{J : Jose} :
  forall (settings : Settings) (utcnow : Z) (token : string) (st st' : redis)
         (data : pydict)
         (DB : Type) (get_with_relation : DB -> pyval -> option models.User)
         (db : DB),
    jwt_authentication settings utcnow token st = (Ok data, st') ->
    exists n roles,
      jwt_decode settings utcnow token = Ok (n, roles) /\
      n <> 0 /\
      data = {["sub" := PInt n]} /\
      st' = st /\
      get_current_user DB get_with_relation db data =
        match get_with_relation db (PInt n) with
        | None => Raise (TokenError None)
        | Some user =>
            if models.is_active user then Ok user
            else Raise (AuthorizationError (Some "用户已锁定"))
        end.
Proof.
  intros settings utcnow token st st' data DB get_with_relation db.
  rewrite jwt_authentication_run.
  destruct (jwt_decode settings utcnow token) as [[n roles] | e] eqn:Hdec;
    [ | discriminate].
  destruct (st !! _) as [[v ttl] | ]; [ | discriminate].
  destruct (String.eqb v ""); [discriminate | ].
  intros H. injection H as <- <-.
  exists n, roles. split; [reflexivity | ].
  split; [exact (proj1 (jwt_decode_ok_nonzero _ _ _ _ _ Hdec)) | ].
  split; [reflexivity | ]. split; [reflexivity | ].
  unfold get_current_user, dict_get. rewrite lookup_singleton_eq.
  cbn [default from_option id].
  destruct (get_with_relation db (PInt n)) as [user | ]; [ | reflexivity].
  destruct (models.is_active user); reflexivity.
Qed.

Lemma authenticated_user_lookup_witness :
  let token := example_token (issued_claims 86400000000 "42" roles_1_2) in
  let st : redis := {[token_key "fba_token" "42" token := (token, 86400)]} in
  exists n roles,
    jwt_decode (J := Reference.jose) example_settings 10 token = Ok (n, roles) /\
    n <> 0 /\
    ({["sub" := PInt 42]} : pydict) = {["sub" := PInt n]} /\
    st = st /\
    get_current_user (gmap Z models.User) example_lookup example_users
      {["sub" := PInt 42]} =
      match example_lookup example_users (PInt n) with
      | None => Raise (TokenError None)
      | Some user =>
          if models.is_active user then Ok user
          else Raise (AuthorizationError (Some "用户已锁定"))
      end.
Proof.
  intros token st.
  apply (authenticated_user_lookup (J := Reference.jose) example_settings 10
           token st st {["sub" := PInt 42]} (gmap Z models.User)
           example_lookup example_users).
  assert (jwt_decode (J := Reference.jose) example_settings 10 token =
          Ok (42, [PInt 1; PInt 2])) as Hdec by (vm_compute; reflexivity).
  rewrite jwt_authentication_run, Hdec.
  change (TOKEN_REDIS_PREFIX example_settings) with "fba_token".
  change (pretty 42) with "42". subst st. rewrite lookup_singleton_eq.
  assert (String.eqb token "" = false) as -> by (vm_compute; reflexivity).
  reflexivity.
Defined.

(** X19. A user that [get_current_user] returned and [superuser_verify]
    passed is the row the lookup found, is active and is a superuser; the
    value [superuser_verify] returns is never [False]. *)
Theorem verified_superuser :
  forall (DB : Type) (get_with_relation : DB -> pyval -> option models.User)
         (db : DB) (data : pydict) (user : models.User) (b : bool),
    get_current_user DB get_with_relation db data = Ok user ->
    superuser_verify user = Ok b ->
    get_with_relation db (dict_get data "sub") = Some user /\
    models.is_active user = true /\
    models.is_superuser user = true /\
    b = true.
Proof.
  intros DB get_with_relation db data user b. unfold get_current_user.
  destruct (get_with_relation db (dict_get data "sub")) as [u | ];
    [ | discriminate].
  destruct (models.is_active u) eqn:Ha; [ | discriminate].
  cbn [negb]. intros H. injection H as ->.
  unfold superuser_verify. cbv zeta.
  destruct (models.is_superuser user) eqn:Hs; [ | discriminate].
  cbn [negb]. intros H. injection H as <-.
  repeat split; assumption || reflexivity.
Qed.

Lemma verified_superuser_witness :
  let user := {| models.id := 42; models.is_active := true;
                 models.is_superuser := true |} in
  example_lookup example_users (dict_get {["sub" := PInt 42]} "sub") =
    Some user /\
  models.is_active user = true /\
  models.is_superuser user = true /\
  true = true.
Proof.
  intros user.
  apply (verified_superuser (gmap Z models.User) example_lookup example_users
           {["sub" := PInt 42]} user true).
  - vm_compute. reflexivity.
  - reflexivity.
Defined.

(** ** A token serves in its own namespace only *)

Lemma access_key_not_under_refresh (settings : Settings) (sub sub' t : string) :
  namespace_partition settings ->
  startswith (subject_prefix (TOKEN_REFRESH_REDIS_PREFIX settings) sub)
    (token_key (TOKEN_REDIS_PREFIX settings) sub' t) = false.
Proof.
  intros (Ha & Hr & Hne). apply not_true_is_false. intros H.
  apply Hne. symmetry. unfold subject_prefix, token_key in H.
  exact (startswith_colon_free _ _ _ _ Hr Ha H).
Qed.

(** X20. With namespaces that partition the keys, a refresh token does not
    authenticate: issuing it writes nothing [jwt_authentication] reads, so
    unless the store already held an access entry for it, it fails with the
    "expired" error even though it decodes.  In the same way an access
    token is refused by [create_new_token] unless the store already held a
    refresh entry for it. *)
Theorem token_serves_its_namespace `{J : Jose} :
  forall (settings : Settings) (now now' utcnow : Z) (sub : string)
         (expires_delta expire_time : option Z) (kwargs kwargs' : pydict)
         (st : redis),
    namespace_partition settings ->
    (forall refresh n roles,
       jose_encode
         (issued_claims (refresh_expiry settings now expire_time).1 sub kwargs)
         (TOKEN_SECRET_KEY settings) (TOKEN_ALGORITHM settings) = Ok refresh ->
       jwt_decode settings utcnow refresh = Ok (n, roles) ->
       st !! token_key (TOKEN_REDIS_PREFIX settings) (pretty n) refresh = None ->
       let st' :=
         (create_refresh_token settings now sub expire_time kwargs st).2 in
       jwt_authentication settings utcnow refresh st' =
         (Raise token_expired, st')) /\
    (forall access,
       jose_encode
         (issued_claims (access_expiry settings now expires_delta).1 sub kwargs)
         (TOKEN_SECRET_KEY settings) (TOKEN_ALGORITHM settings) = Ok access ->
       st !! token_key (TOKEN_REFRESH_REDIS_PREFIX settings) sub access = None ->
       let st' :=
         (create_access_token settings now sub expires_delta kwargs st).2 in
       create_new_token settings now' sub access kwargs' st' =
         (Raise refresh_expired, st')).
Proof.
  intros settings now now' utcnow sub expires_delta expire_time kwargs kwargs'
    st Hp.
  split.
  - intros refresh n roles Henc Hdec Hst st'. subst st'.
    rewrite create_refresh_token_run.
    destruct (refresh_expiry settings now expire_time) as [expire ttl].
    cbn [fst] in Henc. rewrite Henc. cbn [snd].
    rewrite jwt_authentication_run, Hdec, issued_store_lookup.
    rewrite decide_False
      by (apply not_eq_sym, refresh_key_not_access_key, Hp).
    rewrite (access_key_not_under_refresh _ _ _ _ Hp), andb_false_r, Hst.
    reflexivity.
  - intros access Henc Hst st'. subst st'.
    rewrite create_access_token_run.
    destruct (access_expiry settings now expires_delta) as [expire ttl].
    cbn [fst] in Henc. rewrite Henc. cbn [snd].
    rewrite create_new_token_run, issued_store_lookup.
    rewrite decide_False by (apply refresh_key_not_access_key, Hp).
    rewrite (refresh_key_not_under_access _ _ _ _ Hp), andb_false_r, Hst.
    reflexivity.
Qed.

(** A refresh token of user 42, with roles among its claims, is presented
    as an access token. *)
Lemma token_serves_its_namespace_witness :
  let refresh := example_token (issued_claims 604800000000 "42" roles_1_2) in
  let st' := (create_refresh_token (J := Reference.jose) example_settings 0
                "42" None roles_1_2 ∅).2 in
  jwt_decode (J := Reference.jose) example_settings 10 refresh =
    Ok (42, [PInt 1; PInt 2]) /\
  jwt_authentication (J := Reference.jose) example_settings 10 refresh st' =
    (Raise token_expired, st').
Proof.
  intros refresh st'.
  assert (jwt_decode (J := Reference.jose) example_settings 10 refresh =
          Ok (42, [PInt 1; PInt 2])) as Hdec by (vm_compute; reflexivity).
  split; [exact Hdec | ].
  destruct (token_serves_its_namespace (J := Reference.jose) example_settings
              0 0 10 "42" None None roles_1_2 roles_1_2 ∅
              example_settings_partition) as [H _].
  apply (H refresh 42 [PInt 1; PInt 2]).
  - vm_compute. reflexivity.
  - exact Hdec.
  - apply lookup_empty.
Defined.
